(** * Verification of the e-mail verification route (verify.tsx)

    The development embeds the server side of the route: the zod schema
    [VerifySchema], [loader], [action], [prepareVerification],
    [isCodeValid] and [validateRequest], together with the prisma
    [verification] table they work on.  Asynchronous code is modelled
    sequentially: every [await] is a bind of the [Task] monad below, which
    threads the table, records the calls made to prisma and to the flow
    handlers, and propagates exceptions. *)

From Stdlib Require Import ZArith List String Ascii Bool Lia.
Import ListNotations.
Local Open Scope string_scope.
Local Open Scope Z_scope.
Local Open Scope list_scope.

(** ** Data model *)

(** [const types = ['forgot-password', 'onboarding', 'change-email']] *)
Inductive VerificationTypes : Set :=
| forgot_password
| onboarding
| change_email.

Definition types : list string := ["forgot-password"; "onboarding"; "change-email"].

Definition type_name (t : VerificationTypes) : string :=
  match t with
  | forgot_password => "forgot-password"
  | onboarding => "onboarding"
  | change_email => "change-email"
  end.

Definition type_of_name (s : string) : option VerificationTypes :=
  if String.eqb s "forgot-password" then Some forgot_password
  else if String.eqb s "onboarding" then Some onboarding
  else if String.eqb s "change-email" then Some change_email
  else None.

Definition type_eqb (a b : VerificationTypes) : bool :=
  match a, b with
  | forgot_password, forgot_password => true
  | onboarding, onboarding => true
  | change_email, change_email => true
  | _, _ => false
  end.

Definition codeQueryParam := "code".
Definition targetQueryParam := "target".
Definition typeQueryParam := "type".
Definition redirectToQueryParam := "redirectTo".

(** [typeOTPConfig]: the window of every type is 0. *)
Definition typeOTPConfig (t : VerificationTypes) : Z :=
  match t with
  | forgot_password => 0
  | onboarding => 0
  | change_email => 0
  end.

(** A [Date] is its number of milliseconds since the epoch. *)
Definition Date := Z.

(** The time values of JavaScript stop at 8.64e15 ms on either side of
    the epoch: [new Date(t)] of a [t] beyond is an Invalid Date. *)
Definition max_time : Z := 8640000000000000.

Definition valid_date (d : Date) : bool := (- max_time <=? d) && (d <=? max_time).

(** A row of the prisma [verification] table, with the columns the route
    writes and reads.  [expiresAt] is nullable. *)
Record Verification : Set := mkVerification {
  v_type : VerificationTypes;
  v_target : string;
  v_secret : string;
  v_algorithm : string;
  v_period : Z;
  v_expiresAt : option Date
}.

(** The table, in insertion order. *)
Definition Table := list Verification.

Definition has_key (ty : VerificationTypes) (tg : string) (r : Verification) : bool :=
  type_eqb (v_type r) ty && String.eqb (v_target r) tg.

(** ** Calls observed on the collaborators *)

Inductive Event : Set :=
| db_findFirst (ty : VerificationTypes) (tg : string) (now : Date)
| db_deleteMany (ty : VerificationTypes) (tg : string)
| db_create (row : Verification)
| db_delete (ty : VerificationTypes) (tg : string)
| call_handler (ty : VerificationTypes).

Definition is_db_access (e : Event) : bool :=
  match e with
  | call_handler _ => false
  | _ => true
  end.

Definition is_db_write (e : Event) : bool :=
  match e with
  | db_deleteMany _ _ | db_create _ | db_delete _ _ => true
  | db_findFirst _ _ _ | call_handler _ => false
  end.

(** ** The monad of asynchronous server code *)

(** Exceptions: prisma raises P2025 (record to delete does not exist),
    P2002 (unique constraint [target_type] violated) and a validation
    error (an argument that is an Invalid Date); anything else is an
    [Error] with its message. *)
Inductive Exn : Set :=
| RecordNotFound
| UniqueConstraintFailed
| ValidationError
| Error (message : string).

Inductive Result (A : Type) : Type :=
| Ok (a : A)
| Throw (e : Exn).
Arguments Ok {A} a.
Arguments Throw {A} e.

(** A task runs on a table and yields its result, the table it leaves and
    the calls it made, oldest first. *)
Definition Task (A : Type) : Type := Table -> Result A * Table * list Event.

Definition ret {A} (a : A) : Task A := fun db => (Ok a, db, []).

Definition bind {A B} (m : Task A) (k : A -> Task B) : Task B :=
  fun db =>
    match m db with
    | (Ok a, db1, tr1) =>
        match k a db1 with
        | (r, db2, tr2) => (r, db2, tr1 ++ tr2)
        end
    | (Throw e, db1, tr1) => (Throw e, db1, tr1)
    end.

Definition throw {A} (e : Exn) : Task A := fun db => (Throw e, db, []).
Definition lift {A} (r : Result A) : Task A := fun db => (r, db, []).
Definition tell (e : Event) : Task unit := fun db => (Ok tt, db, [e]).
Definition get_table : Task Table := fun db => (Ok db, db, []).
Definition put_table (db' : Table) : Task unit := fun _ => (Ok tt, db', []).

Declare Scope task_scope.
Delimit Scope task_scope with task.
Notation "x <- m ;; k" := (bind m (fun x => k))
  (at level 61, m at next level, right associativity) : task_scope.
Notation "m ;; k" := (bind m (fun _ => k))
  (at level 61, right associativity) : task_scope.
Local Open Scope task_scope.

Definition result_of {A} (x : Result A * Table * list Event) : Result A := fst (fst x).
Definition table_of {A} (x : Result A * Table * list Event) : Table := snd (fst x).
Definition trace_of {A} (x : Result A * Table * list Event) : list Event := snd x.

(** ** prisma.verification *)

(** The filter of [isCodeValid]:
    [OR: [{type, target, expiresAt: {gt: now}}, {type, target, expiresAt: null}]].
    A [gt] filter never matches a null column. *)
Definition live_where (ty : VerificationTypes) (tg : string) (now : Date)
    (r : Verification) : bool :=
  (has_key ty tg r && match v_expiresAt r with Some e => now <? e | None => false end)
  || (has_key ty tg r && match v_expiresAt r with Some _ => false | None => true end).

Definition findFirst (ty : VerificationTypes) (tg : string) (now : Date)
    : Task (option Verification) :=
  tell (db_findFirst ty tg now) ;;
  db <- get_table ;;
  ret (find (live_where ty tg now) db).

(** [deleteMany({where: {type, target}})] removes every matching row. *)
Definition deleteMany (ty : VerificationTypes) (tg : string) : Task unit :=
  tell (db_deleteMany ty tg) ;;
  db <- get_table ;;
  put_table (filter (fun r => negb (has_key ty tg r)) db).

(** [create({data})]: prisma refuses an [expiresAt] that is an Invalid
    Date before it queries the table, and the table has the unique index
    [target_type]. *)
Definition create (row : Verification) : Task Verification :=
  tell (db_create row) ;;
  match v_expiresAt row with
  | Some d => if valid_date d then ret tt else throw ValidationError
  | None => ret tt
  end ;;
  db <- get_table ;;
  if existsb (has_key (v_type row) (v_target row)) db
  then throw UniqueConstraintFailed
  else put_table (db ++ [row]) ;; ret row.

Fixpoint remove_first (ty : VerificationTypes) (tg : string) (db : Table) : Table :=
  match db with
  | [] => []
  | r :: rest => if has_key ty tg r then rest else r :: remove_first ty tg rest
  end.

(** [delete({where: {target_type: {type, target}}})] deletes the row of
    that unique key and raises when there is none. *)
Definition delete (ty : VerificationTypes) (tg : string) : Task Verification :=
  tell (db_delete ty tg) ;;
  db <- get_table ;;
  match find (has_key ty tg) db with
  | None => throw RecordNotFound
  | Some r => put_table (remove_first ty tg db) ;; ret r
  end.

(** ** Requests, form bodies and submissions *)

(** What conform reads in a [FormData] or [URLSearchParams] for a field
    name: nothing, one string, or something that is no string (a repeated
    name gives an array, an upload gives a file). *)
Inductive FormValue : Set :=
| Absent
| Text (s : string)
| NotText.

(** A body as conform resolves it: the intent of the submission
    (["submit"] unless a button set another one) and the four fields the
    route knows. *)
Record Body : Set := mkBody {
  b_intent : string;
  b_code : FormValue;
  b_type : FormValue;
  b_target : FormValue;
  b_redirectTo : FormValue
}.

(** [params.has(codeQueryParam)] *)
Definition has_code (b : Body) : bool :=
  match b_code b with
  | Absent => false
  | _ => true
  end.

(** A cookie session is a bag of key-value pairs. *)
Definition Session := list (string * string).

(** A request: [getDomainUrl(request)], the search parameters of its URL,
    its form data and the session its cookie carries. *)
Record Request : Set := mkRequest {
  req_domainUrl : string;
  req_searchParams : Body;
  req_formData : Body;
  req_session : Session
}.

(** [z.infer<typeof VerifySchema>] *)
Record VerifyData : Set := mkVerifyData {
  d_code : string;
  d_type : VerificationTypes;
  d_target : string;
  d_redirectTo : option string
}.

Inductive ZodIssueCode : Set :=
| invalid_type
| invalid_enum_value
| too_small
| too_big
| custom (message : string).

Record ZodIssue : Set := mkIssue {
  i_path : string;
  i_code : ZodIssueCode
}.

Record Submission : Set := mkSubmission {
  intent : string;
  payload : Body;
  error : list ZodIssue;
  value : option VerifyData
}.

Record VerifyFunctionArgs : Set := mkArgs {
  a_request : Request;
  a_submission : Submission;
  a_body : Body
}.

(** What the route answers: a JSON response, a redirect that commits a
    session, or the answer of a flow handler defined in another route,
    kept as the call that was made. *)
Inductive Response : Set :=
| json (status : string) (submission : Submission) (http_status : Z)
| redirect (location : string) (set_cookie : Session)
| handled (ty : VerificationTypes) (args : VerifyFunctionArgs).

(** ** zod *)

(** The outcome of a zod parser: [INVALID] (status aborted, no value), or
    a value with status valid or dirty.  Issues are collected on the
    side. *)
Inductive ParseReturn (A : Type) : Type :=
| INVALID
| OK (dirty : bool) (a : A).
Arguments INVALID {A}.
Arguments OK {A} dirty a.

Definition Parsed (A : Type) : Type := ParseReturn A * list ZodIssue.

Definition is_nil {A} (l : list A) : bool :=
  match l with
  | [] => true
  | _ => false
  end.

(** [z.string().min(lo).max(hi)]: a value that is no string aborts; a
    string that fails a length check is kept, the parse becomes dirty and
    the later checks still run. *)
Definition z_string_min_max (lo hi : nat) (path : string) (v : FormValue)
    : Parsed string :=
  match v with
  | Text s =>
      let small := if Nat.ltb (String.length s) lo then [mkIssue path too_small] else [] in
      let big := if Nat.ltb hi (String.length s) then [mkIssue path too_big] else [] in
      (OK (negb (is_nil (small ++ big))) s, small ++ big)
  | _ => (INVALID, [mkIssue path invalid_type])
  end.

(** [z.string()] *)
Definition z_string (path : string) (v : FormValue) : Parsed string :=
  match v with
  | Text s => (OK false s, [])
  | _ => (INVALID, [mkIssue path invalid_type])
  end.

(** [z.string().optional()] *)
Definition z_string_optional (path : string) (v : FormValue) : Parsed (option string) :=
  match v with
  | Absent => (OK false None, [])
  | Text s => (OK false (Some s), [])
  | NotText => (INVALID, [mkIssue path invalid_type])
  end.

(** [z.enum(types)] *)
Definition z_enum_types (path : string) (v : FormValue) : Parsed VerificationTypes :=
  match v with
  | Text s =>
      match type_of_name s with
      | Some t => (OK false t, [])
      | None => (INVALID, [mkIssue path invalid_enum_value])
      end
  | _ => (INVALID, [mkIssue path invalid_type])
  end.

(** [VerifySchema]: a [z.object] parses every field, aborts when a field
    aborts and is dirty when a field is dirty. *)
Definition VerifySchema (b : Body) : Parsed VerifyData :=
  let '(c, ic) := z_string_min_max 6 6 codeQueryParam (b_code b) in
  let '(t, it) := z_enum_types typeQueryParam (b_type b) in
  let '(g, ig) := z_string targetQueryParam (b_target b) in
  let '(r, ir) := z_string_optional redirectToQueryParam (b_redirectTo b) in
  (match c, t, g, r with
   | OK dc c', OK dt t', OK dg g', OK dr r' =>
       OK (dc || dt || dg || dr) (mkVerifyData c' t' g' r')
   | _, _, _, _ => INVALID
   end,
   ic ++ it ++ ig ++ ir).

(** ** URLs *)

Record URL : Set := mkURL {
  u_href : string;
  u_searchParams : list (string * string)
}.

(** [url.searchParams.set(name, value)] *)
Fixpoint set_param (name val : string) (ps : list (string * string))
    : list (string * string) :=
  match ps with
  | [] => [(name, val)]
  | (n, v) :: rest =>
      if String.eqb n name
      then (name, val) :: filter (fun p => negb (String.eqb (fst p) name)) rest
      else (n, v) :: set_param name val rest
  end.

Definition searchParams_set (u : URL) (name val : string) : URL :=
  mkURL (u_href u) (set_param name val (u_searchParams u)).

(** [getDomainUrl(request)] is the origin of the request, on which
    [new URL] succeeds. *)
Definition getRedirectToUrl (request : Request) (type : VerificationTypes)
    (target : string) : URL :=
  let redirectToUrl := mkURL (req_domainUrl request ++ "/verify")%string [] in
  let redirectToUrl := searchParams_set redirectToUrl typeQueryParam (type_name type) in
  let redirectToUrl := searchParams_set redirectToUrl targetQueryParam target in
  redirectToUrl.

(** ** The route *)

Definition onboardingEmailSessionKey := "onboardingEmail".

(** What [generateTOTP] returns. *)
Record TOTP : Set := mkTOTP {
  t_otp : string;
  t_secret : string;
  t_algorithm : string;
  t_period : Z
}.

Record Prepared : Set := mkPrepared {
  p_otp : string;
  p_redirectTo : URL;
  p_verifyUrl : URL
}.

Section Route.

(** The two functions the route imports from [~/utils/totp.server.ts];
    either may raise.
    [generateTOTP algorithm period entropy now]: [entropy] is the secret
    it draws at random and [now] the clock it reads.
    [verifyTOTP otp secret algorithm period window now]. *)
Variable generateTOTP : string -> Z -> string -> Date -> Result TOTP.
Variable verifyTOTP : string -> string -> string -> Z -> Z -> Date -> Result bool.

Definition prepareVerification (period : Z) (request : Request)
    (type : VerificationTypes) (target : string)
    (entropy : string) (now : Date) : Task Prepared :=
  let verifyUrl := getRedirectToUrl request type target in
  let redirectTo := verifyUrl in
  otpConfig <- lift (generateTOTP "SHA256" period entropy now) ;;
  deleteMany type target ;;
  create (mkVerification type target
            (t_secret otpConfig) (t_algorithm otpConfig) (t_period otpConfig)
            (Some (now + t_period otpConfig * 1000))) ;;
  let verifyUrl := searchParams_set verifyUrl codeQueryParam (t_otp otpConfig) in
  ret (mkPrepared (t_otp otpConfig) redirectTo verifyUrl).

Definition isCodeValid (code : string) (type : VerificationTypes)
    (target : string) (now : Date) : Task bool :=
  verification <- findFirst type target now ;;
  match verification with
  | None => ret false
  | Some v =>
      result <- lift (verifyTOTP code (v_secret v) (v_algorithm v) (v_period v)
                                 (typeOTPConfig type) now) ;;
      if negb result then ret false else ret true
  end.

(** [VerifySchema.superRefine(async (data, ctx) => ...)]: zod runs the
    refinement unless the object parse aborted, so also on a dirty
    value; an issue the refinement adds makes the parse dirty. *)
Definition refinedSchema (now : Date) (b : Body) : Task (Parsed VerifyData) :=
  let '(inner, issues) := VerifySchema b in
  match inner with
  | INVALID => ret (INVALID, issues)
  | OK dirty data =>
      codeIsValid <- isCodeValid (d_code data) (d_type data) (d_target data) now ;;
      if negb codeIsValid
      then ret (OK true data, issues ++ [mkIssue "code" (custom "Invalid code")])
      else ret (OK dirty data, issues)
  end.

(** conform's [parse(body, {schema, acceptMultipleErrors: () => true,
    async: true})]: the schema runs whatever the intent is; the
    submission has a value only when [safeParseAsync] succeeded, that is
    when the status is valid.  A [Body] is what conform resolved: a
    request on which conform raises before it resolves anything (a
    repeated intent field, a list intent it cannot read) has no [Body],
    and is not a run of this model. *)
Definition parse (now : Date) (b : Body) : Task Submission :=
  r <- refinedSchema now b ;;
  match r with
  | (OK false data, _) => ret (mkSubmission (b_intent b) b [] (Some data))
  | (_, issues) => ret (mkSubmission (b_intent b) b issues None)
  end.

(** [handleVerification] of forgot-password.tsx and of
    profile.change-email.tsx are defined in other routes: the call is
    recorded and stands for the answer. *)
Definition handleForgotPasswordVerification (args : VerifyFunctionArgs)
    : Task Response :=
  tell (call_handler forgot_password) ;; ret (handled forgot_password args).

(** [handleVerification] of onboarding.tsx. *)
Definition handleOnboardingVerification (args : VerifyFunctionArgs)
    : Task Response :=
  tell (call_handler onboarding) ;;
  match value (a_submission args) with
  | None => throw (Error "submission.value should be defined by now")
  | Some submissionValue =>
      let session := req_session (a_request args) in
      let session := set_param onboardingEmailSessionKey (d_target submissionValue) session in
      ret (redirect "/onboarding" session)
  end.

Definition handleChangeEmailVerification (args : VerifyFunctionArgs)
    : Task Response :=
  tell (call_handler change_email) ;; ret (handled change_email args).

Definition validateRequest (request : Request) (body : Body) (now : Date)
    : Task Response :=
  submission <- parse now body ;;
  if negb (String.eqb (intent submission) "submit")
  then ret (json "idle" submission 200)
  else
    match value submission with
    | None => ret (json "error" submission 400)
    | Some submissionValue =>
        delete (d_type submissionValue) (d_target submissionValue) ;;
        match d_type submissionValue with
        | forgot_password =>
            handleForgotPasswordVerification (mkArgs request submission body)
        | onboarding =>
            handleOnboardingVerification (mkArgs request submission body)
        | change_email =>
            handleChangeEmailVerification (mkArgs request submission body)
        end
    end.

Definition loader (request : Request) (now : Date) : Task Response :=
  let params := req_searchParams request in
  if negb (has_code params)
  then ret (json "idle" (mkSubmission "" params [] None) 200)
  else validateRequest request params now.

Definition action (request : Request) (now : Date) : Task Response :=
  validateRequest request (req_formData request) now.

End Route.

(** ** The TOTP primitive *)

Module Totp.

(** The six decimal digits of [n mod 10^6], most significant first. *)
Definition digit (d : Z) : ascii := ascii_of_nat (48 + Z.to_nat (d mod 10)).

Definition six_digits (n : Z) : string :=
  String (digit (n / 100000))
    (String (digit (n / 10000))
       (String (digit (n / 1000))
          (String (digit (n / 100))
             (String (digit (n / 10))
                (String (digit n) EmptyString))))).

(** The bits in which two strings differ over their common length: every
    pair of bytes is visited, whatever the earlier ones gave. *)
Fixpoint diff_bits (a b : string) : N :=
  match a, b with
  | String x a', String y b' =>
      N.lor (N.lxor (N_of_ascii x) (N_of_ascii y)) (diff_bits a' b')
  | _, _ => 0%N
  end.

Definition constant_time_eq (a b : string) : bool :=
  Nat.eqb (String.length a) (String.length b) && N.eqb (diff_bits a b) 0.

(** The time steps [step - window .. step + window]. *)
Definition window_steps (step window : Z) : list Z :=
  map (fun i => step - window + Z.of_nat i) (seq 0 (Z.to_nat (2 * window + 1))).

Section Primitive.

(** The keyed hash of a time step under an algorithm and a secret, as
    a number. *)
Variable keyed_hash : string -> string -> Z -> Z.

Definition time_step (period at_time : Z) : Z := at_time / period.

(** Modelled from the spec: [generate] of totp.server.ts, which is not
    among the sources.  A deterministic function of the secret and of
    the time step [floor(at_time / period)] that produces six digits;
    [period <= 0] fails fast. *)
Definition generate (secret algorithm : string) (period at_time : Z)
    : option string :=
  if period <=? 0 then None
  else Some (six_digits (keyed_hash algorithm secret (time_step period at_time))).

(** Modelled from the spec: [verify] of totp.server.ts, which is not
    among the sources.  It recomputes the code of the current time
    step and of up to [window] steps before and after, and compares
    each with the submitted code in constant time, without stopping at
    the first match; a code of the wrong length never matches;
    [period <= 0] fails fast. *)
Definition verify (code secret algorithm : string) (period window at_time : Z)
    : option bool :=
  if period <=? 0 then None
  else
    let step := time_step period at_time in
    let matches :=
      map (fun i => constant_time_eq (six_digits (keyed_hash algorithm secret i)) code)
          (window_steps step window) in
    Some (Nat.eqb (String.length code) 6 && fold_left orb matches false).

(** Modelled from the spec: [generateTOTP] and [verifyTOTP] of
    totp.server.ts, the primitive as the route calls it.  The secret is
    the fresh one drawn for the challenge, the clock is read in
    milliseconds, and failing fast is raising. *)
Definition generateTOTP (algorithm : string) (period : Z) (entropy : string)
    (now : Date) : Result TOTP :=
  match generate entropy algorithm period (now / 1000) with
  | Some code => Ok (mkTOTP code entropy algorithm period)
  | None => Throw (Error "period must be positive")
  end.

Definition verifyTOTP (code secret algorithm : string) (period window : Z)
    (now : Date) : Result bool :=
  match verify code secret algorithm period window (now / 1000) with
  | Some b => Ok b
  | None => Throw (Error "period must be positive")
  end.

End Primitive.

End Totp.

(** ** HMAC-SHA-256, the keyed hash of algorithm ['SHA256'] *)

(** The general results below hold for every keyed hash.  To run the
    route on concrete requests the hash is instantiated with the one the
    route asks for: HOTP (RFC 4226) over HMAC (RFC 2104) with SHA-256
    (FIPS 180-4).  Words are 32-bit numbers in [Z], bytes are numbers
    below 256. *)
Module Sha256.

Definition mask32 (x : Z) : Z := x mod 4294967296.
Definition add32 (x y : Z) : Z := mask32 (x + y).
Definition rotr (n x : Z) : Z := Z.lor (Z.shiftr x n) (mask32 (Z.shiftl x (32 - n))).
Definition not32 (x : Z) : Z := 4294967295 - x.

Definition Ch (x y z : Z) : Z := Z.lxor (Z.land x y) (Z.land (not32 x) z).
Definition Maj (x y z : Z) : Z :=
  Z.lxor (Z.lxor (Z.land x y) (Z.land x z)) (Z.land y z).
Definition bsig0 (x : Z) : Z := Z.lxor (Z.lxor (rotr 2 x) (rotr 13 x)) (rotr 22 x).
Definition bsig1 (x : Z) : Z := Z.lxor (Z.lxor (rotr 6 x) (rotr 11 x)) (rotr 25 x).
Definition ssig0 (x : Z) : Z := Z.lxor (Z.lxor (rotr 7 x) (rotr 18 x)) (Z.shiftr x 3).
Definition ssig1 (x : Z) : Z := Z.lxor (Z.lxor (rotr 17 x) (rotr 19 x)) (Z.shiftr x 10).

Definition round_constants : list Z :=
  [1116352408; 1899447441; 3049323471; 3921009573;
   961987163; 1508970993; 2453635748; 2870763221;
   3624381080; 310598401; 607225278; 1426881987;
   1925078388; 2162078206; 2614888103; 3248222580;
   3835390401; 4022224774; 264347078; 604807628;
   770255983; 1249150122; 1555081692; 1996064986;
   2554220882; 2821834349; 2952996808; 3210313671;
   3336571891; 3584528711; 113926993; 338241895;
   666307205; 773529912; 1294757372; 1396182291;
   1695183700; 1986661051; 2177026350; 2456956037;
   2730485921; 2820302411; 3259730800; 3345764771;
   3516065817; 3600352804; 4094571909; 275423344;
   430227734; 506948616; 659060556; 883997877;
   958139571; 1322822218; 1537002063; 1747873779;
   1955562222; 2024104815; 2227730452; 2361852424;
   2428436474; 2756734187; 3204031479; 3329325298].

Definition initial_hash : list Z :=
  [1779033703; 3144134277; 1013904242; 2773480762;
   1359893119; 2600822924; 528734635; 1541459225].

(** Big-endian bytes of a number, [n] of them. *)
Fixpoint be_bytes (n : nat) (x : Z) : list Z :=
  match n with
  | O => []
  | S n' => be_bytes n' (x / 256) ++ [x mod 256]
  end.

Fixpoint be_words (bytes : list Z) : list Z :=
  match bytes with
  | a :: b :: c :: d :: rest =>
      (((a * 256 + b) * 256 + c) * 256 + d) :: be_words rest
  | _ => []
  end.

Definition pad (msg : list Z) : list Z :=
  let len := Z.of_nat (List.length msg) in
  let zeros := Z.to_nat ((55 - len) mod 64) in
  msg ++ [128] ++ repeat 0 zeros ++ be_bytes 8 (8 * len).

(** The message schedule, newest word first. *)
Fixpoint extend (n : nat) (w : list Z) : list Z :=
  match n with
  | O => w
  | S n' =>
      let next :=
        add32 (add32 (ssig1 (nth 1 w 0)) (nth 6 w 0))
              (add32 (ssig0 (nth 14 w 0)) (nth 15 w 0)) in
      extend n' (next :: w)
  end.

Definition schedule (block : list Z) : list Z :=
  rev (extend 48 (rev (be_words block))).

Definition round (s : list Z) (kw : Z * Z) : list Z :=
  match s with
  | [a; b; c; d; e; f; g; h] =>
      let t1 := add32 (add32 (add32 h (bsig1 e)) (add32 (Ch e f g) (fst kw))) (snd kw) in
      let t2 := add32 (bsig0 a) (Maj a b c) in
      [add32 t1 t2; a; b; c; add32 d t1; e; f; g]
  | _ => s
  end.

Definition compress (h : list Z) (block : list Z) : list Z :=
  let s := fold_left round (combine round_constants (schedule block)) h in
  map (fun p => add32 (fst p) (snd p)) (combine h s).

Fixpoint blocks (n : nat) (bytes : list Z) : list (list Z) :=
  match n with
  | O => []
  | S n' =>
      match bytes with
      | [] => []
      | _ => firstn 64 bytes :: blocks n' (skipn 64 bytes)
      end
  end.

Definition sha256 (msg : list Z) : list Z :=
  let padded := pad msg in
  let h := fold_left compress (blocks (List.length padded) padded) initial_hash in
  List.concat (map (be_bytes 4) h).

Definition xor_pad (c : Z) (key : list Z) : list Z := map (Z.lxor c) key.

Definition hmac (key msg : list Z) : list Z :=
  let key := if Nat.ltb 64 (List.length key) then sha256 key else key in
  let key := key ++ repeat 0 (64 - List.length key)%nat in
  sha256 (xor_pad 92 key ++ sha256 (xor_pad 54 key ++ msg)).

Fixpoint bytes_of_string (s : string) : list Z :=
  match s with
  | EmptyString => []
  | String c rest => Z.of_N (N_of_ascii c) :: bytes_of_string rest
  end.

(** HOTP: dynamic truncation of the HMAC of the counter to 31 bits. *)
Definition hotp (secret : string) (counter : Z) : Z :=
  let digest := hmac (bytes_of_string secret) (be_bytes 8 counter) in
  let offset := Z.to_nat (Z.land (last digest 0) 15) in
  match skipn offset digest with
  | a :: b :: c :: d :: _ => ((Z.land a 127 * 256 + b) * 256 + c) * 256 + d
  | _ => 0
  end.

(** Only SHA-256 is wired in; the route asks for no other algorithm. *)
Definition keyed_hash (algorithm secret : string) (counter : Z) : Z :=
  hotp secret counter.

End Sha256.

Definition generateTOTP := Totp.generateTOTP Sha256.keyed_hash.
Definition verifyTOTP := Totp.verifyTOTP Sha256.keyed_hash.


(** ** Tables and histories *)

Definition count_key (ty : VerificationTypes) (tg : string) (db : Table) : nat :=
  List.length (filter (has_key ty tg) db).

(** The unique index [target_type]: no two rows share a type and a target. *)
Fixpoint unique_keys (db : Table) : bool :=
  match db with
  | [] => true
  | r :: rest => negb (existsb (has_key (v_type r) (v_target r)) rest) && unique_keys rest
  end.

(** What happens to the table over time: challenges are issued and
    requests reach the loader (GET) or the action (POST). *)
Inductive Op : Set :=
| issue (period : Z) (request : Request) (type : VerificationTypes)
        (target : string) (entropy : string) (now : Date)
| get (request : Request) (now : Date)
| post (request : Request) (now : Date).

Definition is_submission (op : Op) : bool :=
  match op with
  | issue _ _ _ _ _ _ => false
  | _ => true
  end.

Section Histories.

Variable generateTOTP : string -> Z -> string -> Date -> Result TOTP.
Variable verifyTOTP : string -> string -> string -> Z -> Z -> Date -> Result bool.

Definition step (db : Table) (op : Op) : Table :=
  match op with
  | issue period request type target entropy now =>
      table_of (prepareVerification generateTOTP period request type target entropy now db)
  | get request now => table_of (loader verifyTOTP request now db)
  | post request now => table_of (action verifyTOTP request now db)
  end.

Definition run (ops : list Op) (db : Table) : Table := fold_left step ops db.

End Histories.

(** A body passes validation on a table at a time: it is a submission
    (intent ["submit"]) and [parse] gives it a value. *)
Definition accepts (verifyTOTP : string -> string -> string -> Z -> Z -> Date -> Result bool)
    (body : Body) (now : Date) (db : Table) (data : VerifyData) : Prop :=
  exists sub,
    result_of (parse verifyTOTP now body db) = Ok sub /\
    intent sub = "submit" /\
    value sub = Some data.

(** ** Sample requests *)

Module Sample.

Definition t0 : Date := 1700000000000.

Definition form (code : string) : Body :=
  mkBody "submit" (Text code) (Text "onboarding") (Text "a@x.com") Absent.

Definition request (b : Body) : Request := mkRequest "https://x.com" b b [].

(** The table after a challenge was issued at [t0] for ten minutes. *)
Definition issued : Table :=
  table_of (prepareVerification generateTOTP 600 (request (form "")) onboarding
              "a@x.com" "secret-00678" t0 []).

(** The table after a second challenge was issued five seconds later. *)
Definition reissued : Table :=
  table_of (prepareVerification generateTOTP 600 (request (form "")) onboarding
              "a@x.com" "secret-00823" (t0 + 5000) issued).

(** What the schema makes of [form "053957"], the code of [issued] in
    the time step of [t0]. *)
Definition data : VerifyData := mkVerifyData "053957" onboarding "a@x.com" None.

End Sample.

(** ** A primitive that accepts a short code *)


(** ** The verify page and the sessions *)

(** [searchParams.get(name)]: the first value of the name, or null. *)
Fixpoint searchParams_get (name : string) (ps : list (string * string))
    : option string :=
  match ps with
  | [] => None
  | (n, v) :: rest => if String.eqb n name then Some v else searchParams_get name rest
  end.


(** The [defaultValue] of the form of [VerifyRoute]:
    [searchParams.get(name) ?? ''] for each of the four fields. *)
Record DefaultValue : Set := mkDefaultValue {
  dv_code : string;
  dv_type : string;
  dv_target : string;
  dv_redirectTo : string
}.

Definition or_empty (v : option string) : string :=
  match v with
  | Some s => s
  | None => ""
  end.

Definition defaultValue (searchParams : list (string * string)) : DefaultValue :=
  mkDefaultValue
    (or_empty (searchParams_get "code" searchParams))
    (or_empty (searchParams_get "type" searchParams))
    (or_empty (searchParams_get "target" searchParams))
    (or_empty (searchParams_get "redirectTo" searchParams)).

(** ** Expiry of a whole table *)

(** Every row has a non-null [expiresAt]. *)
Definition all_expire (db : Table) : bool :=
  forallb (fun r => match v_expiresAt r with Some _ => true | None => false end) db.

(** A time at which every non-null [expiresAt] of the table has passed. *)
Fixpoint latest_expiry (db : Table) : Date :=
  match db with
  | [] => 0
  | r :: rest =>
      match v_expiresAt r with
      | Some e => Z.max e (latest_expiry rest)
      | None => latest_expiry rest
      end
  end.

(** ** Histories with their calls *)

Definition is_delete_of (ty : VerificationTypes) (tg : string) (e : Event) : bool :=
  match e with
  | db_delete ty' tg' => type_eqb ty' ty && String.eqb tg' tg
  | _ => false
  end.

Definition is_create_of (ty : VerificationTypes) (tg : string) (e : Event) : bool :=
  match e with
  | db_create row => has_key ty tg row
  | _ => false
  end.

Definition count_events (f : Event -> bool) (log : list Event) : nat :=
  List.length (filter f log).

Section HistoryLogs.

Variable generateTOTP : string -> Z -> string -> Date -> Result TOTP.
Variable verifyTOTP : string -> string -> string -> Z -> Z -> Date -> Result bool.

(** One operation on a table, with the calls made so far. *)
Definition step_log (st : Table * list Event) (op : Op) : Table * list Event :=
  match op with
  | issue period request type target entropy now =>
      let out :=
        prepareVerification generateTOTP period request type target entropy now (fst st) in
      (table_of out, snd st ++ trace_of out)
  | get request now =>
      let out := loader verifyTOTP request now (fst st) in
      (table_of out, snd st ++ trace_of out)
  | post request now =>
      let out := action verifyTOTP request now (fst st) in
      (table_of out, snd st ++ trace_of out)
  end.

Definition run_log (ops : list Op) (db : Table) : Table * list Event :=
  fold_left step_log ops (db, []).

End HistoryLogs.

(** * Results *)

(** ** The table operations *)

Lemma type_eqb_eq (a b : VerificationTypes) : type_eqb a b = true <-> a = b.
Proof. destruct a, b; simpl; split; intros H; try reflexivity; discriminate H. Qed.

Lemma has_key_spec ty tg r :
  has_key ty tg r = true <-> v_type r = ty /\ v_target r = tg.
Proof.
  unfold has_key. rewrite andb_true_iff, type_eqb_eq, String.eqb_eq. tauto.
Qed.

Lemma live_where_spec ty tg now r :
  live_where ty tg now r = true <->
  has_key ty tg r = true /\
  (v_expiresAt r = None \/ exists e, v_expiresAt r = Some e /\ now < e).
Proof.
  unfold live_where. destruct (has_key ty tg r); simpl.
  - destruct (v_expiresAt r) as [e|]; simpl.
    + rewrite orb_false_r, Z.ltb_lt. split.
      * intros H. split; [reflexivity|]. right. exists e. split; [reflexivity|exact H].
      * intros [_ [H|[e' [H H']]]]; [discriminate H|]. injection H as ->. exact H'.
    + split; [|reflexivity]. intros _. split; [reflexivity|]. left. reflexivity.
  - split; [discriminate|]. intros [H _]. discriminate H.
Qed.

Lemma find_live_has_key ty tg now db v :
  find (live_where ty tg now) db = Some v ->
  exists r, find (has_key ty tg) db = Some r.
Proof.
  induction db as [|r db IH]; simpl; [discriminate|].
  destruct (live_where ty tg now r) eqn:L.
  - intros _. apply live_where_spec in L as [K _]. rewrite K. exists r. reflexivity.
  - intros H. destruct (has_key ty tg r); [exists r; reflexivity | exact (IH H)].
Qed.

Lemma count_key_filter_out ty tg db :
  count_key ty tg (filter (fun r => negb (has_key ty tg r)) db) = 0%nat.
Proof.
  unfold count_key. induction db as [|r db IH]; simpl; [reflexivity|].
  destruct (has_key ty tg r) eqn:K; simpl; [exact IH|]. rewrite K. exact IH.
Qed.

Lemma count_key_app ty tg a b :
  count_key ty tg (a ++ b) = (count_key ty tg a + count_key ty tg b)%nat.
Proof. unfold count_key. rewrite filter_app, length_app. reflexivity. Qed.

Lemma count_key_zero_existsb ty tg db :
  count_key ty tg db = 0%nat <-> existsb (has_key ty tg) db = false.
Proof.
  unfold count_key. induction db as [|r db IH]; simpl; [tauto|].
  destruct (has_key ty tg r); simpl; [split; discriminate | exact IH].
Qed.

Lemma existsb_find_none {A} (f : A -> bool) l :
  existsb f l = false <-> find f l = None.
Proof.
  induction l as [|a l IH]; simpl; [tauto|].
  destruct (f a); simpl; [split; discriminate | exact IH].
Qed.




(** Deleting by unique key leaves no row of that key. *)
Lemma remove_first_absent ty tg db :
  unique_keys db = true -> existsb (has_key ty tg) (remove_first ty tg db) = false.
Proof.
  induction db as [|r db IH]; simpl; [reflexivity|].
  intros U. apply andb_true_iff in U as [N U]. apply negb_true_iff in N.
  destruct (has_key ty tg r) eqn:K; simpl.
  - apply has_key_spec in K as [<- <-]. exact N.
  - rewrite K. exact (IH U).
Qed.

(** Deleting by unique key takes one row of that key away. *)
Lemma count_key_remove_first_same ty tg db :
  existsb (has_key ty tg) db = true ->
  S (count_key ty tg (remove_first ty tg db)) = count_key ty tg db.
Proof.
  unfold count_key. induction db as [|r db IH]; cbn [existsb remove_first filter];
    [discriminate|].
  destruct (has_key ty tg r) eqn:K; cbn [orb].
  - intros _. reflexivity.
  - intros E. cbn [filter]. rewrite K. exact (IH E).
Qed.




(** ** The schema *)

(** What [VerifySchema] lets through, dirty or not: code and target are
    strings, type names one of [types], and the value is dirty exactly
    when the code has not six characters. *)
Lemma VerifySchema_ok body dirty data :
  fst (VerifySchema body) = OK dirty data ->
  b_code body = Text (d_code data) /\
  b_type body = Text (type_name (d_type data)) /\
  b_target body = Text (d_target data) /\
  dirty = negb (Nat.eqb (String.length (d_code data)) 6).
Proof.
  unfold VerifySchema, z_string_min_max, z_enum_types, z_string, z_string_optional.
  destruct (b_code body) as [|c|]; destruct (b_type body) as [|t|];
    destruct (b_target body) as [|g|]; destruct (b_redirectTo body) as [|r|];
    cbn [fst]; try discriminate;
    try (destruct (type_of_name t); discriminate).
  all: destruct (type_of_name t) as [ty|] eqn:T; cbn [fst]; try discriminate.
  all: intros [= <- <-]; cbn [d_code d_type d_target].
  all: assert (t = type_name ty) as ->
         by (unfold type_of_name in T;
             destruct (String.eqb_spec t "forgot-password") as [->|_];
             [injection T as <-; reflexivity|];
             destruct (String.eqb_spec t "onboarding") as [->|_];
             [injection T as <-; reflexivity|];
             destruct (String.eqb_spec t "change-email") as [->|_];
             [injection T as <-; reflexivity|discriminate T]).
  all: repeat split.
  all: rewrite !orb_false_r.
  all: destruct (Nat.ltb_spec (String.length c) 6);
       destruct (Nat.ltb_spec 6 (String.length c));
       destruct (Nat.eqb_spec (String.length c) 6); cbn; try reflexivity; lia.
Qed.

(** ** The route, run on a table *)

Ltac unfold_task :=
  unfold lift, bind, ret, tell, throw, get_table, put_table,
    result_of, table_of, trace_of in *.

Section RouteFacts.

Variable generateTOTP : string -> Z -> string -> Date -> Result TOTP.
Variable verifyTOTP : string -> string -> string -> Z -> Z -> Date -> Result bool.

Lemma prepareVerification_run period request type target entropy now db :
  prepareVerification generateTOTP period request type target entropy now db =
  match generateTOTP "SHA256" period entropy now with
  | Throw e => (Throw e, db, [])
  | Ok otpConfig =>
      let row :=
        mkVerification type target (t_secret otpConfig) (t_algorithm otpConfig)
          (t_period otpConfig) (Some (now + t_period otpConfig * 1000)) in
      if valid_date (now + t_period otpConfig * 1000)
      then
        (Ok (mkPrepared (t_otp otpConfig) (getRedirectToUrl request type target)
               (searchParams_set (getRedirectToUrl request type target)
                  codeQueryParam (t_otp otpConfig))),
         filter (fun r => negb (has_key type target r)) db ++ [row],
         [db_deleteMany type target; db_create row])
      else
        (Throw ValidationError,
         filter (fun r => negb (has_key type target r)) db,
         [db_deleteMany type target; db_create row])
  end.
Proof.
  unfold prepareVerification, deleteMany, create. unfold_task.
  destruct (generateTOTP "SHA256" period entropy now) as [g|e]; [|reflexivity].
  cbn [v_type v_target v_expiresAt].
  destruct (valid_date (now + t_period g * 1000)); [|reflexivity].
  assert (existsb (has_key type target)
            (filter (fun r => negb (has_key type target r)) db) = false) as ->
    by (apply count_key_zero_existsb, count_key_filter_out).
  reflexivity.
Qed.

Lemma isCodeValid_run code type target now db :
  isCodeValid verifyTOTP code type target now db =
  (match find (live_where type target now) db with
   | None => Ok false
   | Some v =>
       verifyTOTP code (v_secret v) (v_algorithm v) (v_period v)
         (typeOTPConfig type) now
   end, db, [db_findFirst type target now]).
Proof.
  unfold isCodeValid, findFirst. unfold_task.
  destruct (find (live_where type target now) db) as [v|]; [|reflexivity].
  destruct (verifyTOTP _ _ _ _ _ _) as [[|]|e]; reflexivity.
Qed.

Lemma parse_run now body db :
  parse verifyTOTP now body db =
  match VerifySchema body with
  | (INVALID, issues) => (Ok (mkSubmission (b_intent body) body issues None), db, [])
  | (OK dirty data, issues) =>
      (match result_of (isCodeValid verifyTOTP (d_code data) (d_type data)
                          (d_target data) now db) with
       | Throw e => Throw e
       | Ok false =>
           Ok (mkSubmission (b_intent body) body
                 (issues ++ [mkIssue "code" (custom "Invalid code")]) None)
       | Ok true =>
           if dirty then Ok (mkSubmission (b_intent body) body issues None)
           else Ok (mkSubmission (b_intent body) body [] (Some data))
       end, db, [db_findFirst (d_type data) (d_target data) now])
  end.
Proof.
  unfold parse, refinedSchema.
  destruct (VerifySchema body) as [[|dirty data] issues]; [reflexivity|].
  unfold bind at 1 2. rewrite isCodeValid_run. unfold_task. cbn [fst snd].
  destruct (find _ db) as [v|]; [|reflexivity].
  destruct (verifyTOTP _ _ _ _ _ _) as [[|]|e]; try reflexivity.
  destruct dirty; reflexivity.
Qed.

(** A submission has a value exactly when the schema accepted the body
    without any issue and [isCodeValid] answered true. *)
Lemma parse_value now body db sub data :
  result_of (parse verifyTOTP now body db) = Ok sub ->
  value sub = Some data ->
  fst (VerifySchema body) = OK false data /\
  result_of (isCodeValid verifyTOTP (d_code data) (d_type data) (d_target data) now db)
    = Ok true /\
  trace_of (parse verifyTOTP now body db)
    = [db_findFirst (d_type data) (d_target data) now] /\
  intent sub = b_intent body.
Proof.
  rewrite parse_run.
  destruct (VerifySchema body) as [[|dirty d] issues]; cbn [result_of trace_of fst snd].
  - intros [= <-]. discriminate.
  - destruct (result_of (isCodeValid verifyTOTP _ _ _ now db)) as [[|]|e] eqn:V.
    + destruct dirty; intros [= <-]; [discriminate|].
      cbn [value intent]. intros [= <-]. rewrite V. repeat split.
    + intros [= <-]. discriminate.
    + discriminate.
Qed.

Lemma parse_frame now body db :
  table_of (parse verifyTOTP now body db) = db.
Proof.
  rewrite parse_run. destruct (VerifySchema body) as [[|dirty d] issues]; reflexivity.
Qed.

Lemma isCodeValid_true_row code type target now db :
  result_of (isCodeValid verifyTOTP code type target now db) = Ok true ->
  exists v, find (live_where type target now) db = Some v /\
    verifyTOTP code (v_secret v) (v_algorithm v) (v_period v) (typeOTPConfig type) now
      = Ok true.
Proof.
  rewrite isCodeValid_run. cbn [result_of fst].
  destruct (find (live_where type target now) db) as [v|]; [|discriminate].
  intros H. exists v. split; [reflexivity | exact H].
Qed.

(** [validateRequest] in terms of the submission [parse] returns. *)
Lemma validateRequest_run request body now db :
  let out := validateRequest verifyTOTP request body now db in
  let parsed := parse verifyTOTP now body db in
  match result_of parsed with
  | Throw e => out = (Throw e, db, trace_of parsed)
  | Ok sub =>
      if negb (String.eqb (intent sub) "submit")
      then out = (Ok (json "idle" sub 200), db, trace_of parsed)
      else
        match value sub with
        | None => out = (Ok (json "error" sub 400), db, trace_of parsed)
        | Some data =>
            exists resp,
              out = (Ok resp, remove_first (d_type data) (d_target data) db,
                     trace_of parsed
                     ++ [db_delete (d_type data) (d_target data);
                         call_handler (d_type data)])
        end
  end.
Proof.
  intros out parsed. subst parsed.
  assert (out = validateRequest verifyTOTP request body now db) as O by reflexivity.
  clearbody out.
  pose proof (parse_frame now body db) as F.
  pose proof (parse_value now body db) as V.
  unfold validateRequest in O. unfold bind at 1 in O. cbv beta in O.
  destruct (parse verifyTOTP now body db) as [[[sub|e] db1] tr1];
    cbn [result_of table_of trace_of fst snd] in *; subst db1 out; [|reflexivity].
  destruct (negb (String.eqb (intent sub) "submit")).
  - unfold ret. rewrite app_nil_r. reflexivity.
  - destruct (value sub) as [data|] eqn:E.
    + destruct (V sub data eq_refl E) as (_ & T & _ & _).
      apply isCodeValid_true_row in T as (v & L & _).
      apply find_live_has_key in L as [r L].
      unfold delete, handleForgotPasswordVerification, handleOnboardingVerification,
        handleChangeEmailVerification. unfold_task. rewrite L.
      destruct (d_type data) eqn:Ty; cbn [a_submission a_request]; rewrite ?E;
        eexists; reflexivity.
    + unfold ret. rewrite app_nil_r. reflexivity.
Qed.

(** A run of [validateRequest] either writes nothing, or is accepted:
    then it deletes the row of the key and calls the handler of the
    type, in this order, after the one lookup of [isCodeValid]. *)
Lemma validateRequest_cases request body now db :
  let out := validateRequest verifyTOTP request body now db in
  (table_of out = db /\
   trace_of out = trace_of (parse verifyTOTP now body db) /\
   forall data, ~ accepts verifyTOTP body now db data)
  \/
  (exists data resp,
     accepts verifyTOTP body now db data /\
     out = (Ok resp, remove_first (d_type data) (d_target data) db,
            [db_findFirst (d_type data) (d_target data) now;
             db_delete (d_type data) (d_target data);
             call_handler (d_type data)])).
Proof.
  intros out. subst out.
  pose proof (validateRequest_run request body now db) as R. cbv zeta in R.
  pose proof (parse_value now body db) as V.
  destruct (result_of (parse verifyTOTP now body db)) as [sub|e] eqn:P.
  - destruct (String.eqb (intent sub) "submit") eqn:I; cbn [negb] in R.
    + destruct (value sub) as [data|] eqn:E.
      * right. destruct R as [resp R]. exists data, resp. split.
        -- exists sub. apply String.eqb_eq in I. repeat split; assumption.
        -- destruct (V sub data eq_refl E) as (_ & _ & T & _).
           rewrite R, T. reflexivity.
      * left. rewrite R. repeat split.
        intros data (sub' & P' & _ & E'). rewrite P in P'. congruence.
    + left. rewrite R. repeat split.
      intros data (sub' & P' & I' & _). rewrite P in P'. injection P' as <-.
      rewrite I' in I. discriminate I.
  - left. rewrite R. repeat split.
    intros data (sub' & P' & _). rewrite P in P'. discriminate P'.
Qed.

Lemma parse_trace now body db :
  trace_of (parse verifyTOTP now body db) = [] \/
  exists ty tg, trace_of (parse verifyTOTP now body db) = [db_findFirst ty tg now].
Proof.
  rewrite parse_run. destruct (VerifySchema body) as [[|dirty d] issues].
  - left. reflexivity.
  - right. exists (d_type d), (d_target d). reflexivity.
Qed.

Lemma validateRequest_table request body now db :
  table_of (validateRequest verifyTOTP request body now db) = db \/
  exists ty tg,
    table_of (validateRequest verifyTOTP request body now db) = remove_first ty tg db.
Proof.
  destruct (validateRequest_cases request body now db) as [(T & _) | (data & resp & _ & R)].
  - left. exact T.
  - right. exists (d_type data), (d_target data). rewrite R. reflexivity.
Qed.

Lemma loader_table request now db :
  table_of (loader verifyTOTP request now db) = db \/
  exists ty tg, table_of (loader verifyTOTP request now db) = remove_first ty tg db.
Proof.
  unfold loader. destruct (negb (has_code (req_searchParams request))).
  - left. reflexivity.
  - apply validateRequest_table.
Qed.

(** A submission writes nothing or deletes one row. *)
Lemma submission_table op db :
  is_submission op = true ->
  step generateTOTP verifyTOTP db op = db \/
  exists ty tg, step generateTOTP verifyTOTP db op = remove_first ty tg db.
Proof.
  destruct op as [p r ty tg e n | r n | r n]; cbn [is_submission step]; intros H.
  - discriminate H.
  - apply loader_table.
  - apply validateRequest_table.
Qed.




(** Passing validation, spelled out: the intent is ["submit"], the schema
    gives a value without issue, and [isCodeValid] answers true on it. *)
Lemma accepts_iff body now db data :
  accepts verifyTOTP body now db data <->
  b_intent body = "submit" /\
  fst (VerifySchema body) = OK false data /\
  result_of (isCodeValid verifyTOTP (d_code data) (d_type data) (d_target data) now db)
  = Ok true.
Proof.
  split.
  - intros (sub & P & I & V).
    destruct (parse_value now body db sub data P V) as (Sch & C & _ & I').
    rewrite <- I'. repeat split; assumption.
  - intros (I & Sch & C). unfold accepts. rewrite parse_run.
    destruct (VerifySchema body) as [ret issues]. cbn [fst] in Sch. subst ret.
    rewrite C. cbn [result_of fst]. eexists. split; [reflexivity|].
    split; [exact I | reflexivity].
Qed.

Lemma isCodeValid_absent code ty tg now db :
  existsb (has_key ty tg) db = false ->
  isCodeValid verifyTOTP code ty tg now db = (Ok false, db, [db_findFirst ty tg now]).
Proof.
  intros A. rewrite isCodeValid_run.
  destruct (find (live_where ty tg now) db) as [v|] eqn:L; [|reflexivity].
  apply find_live_has_key in L as [r L].
  apply existsb_find_none in A. rewrite A in L. discriminate L.
Qed.

(** A submission that passes validation has a row of its key. *)
Lemma accepts_has_row body now db data :
  accepts verifyTOTP body now db data ->
  existsb (has_key (d_type data) (d_target data)) db = true.
Proof.
  intros (sub & P & _ & V).
  destruct (parse_value now body db sub data P V) as (_ & C & _ & _).
  apply isCodeValid_true_row in C as (v & L & _).
  apply find_live_has_key in L as [r L].
  destruct (existsb (has_key (d_type data) (d_target data)) db) eqn:X; [reflexivity|].
  apply existsb_find_none in X. rewrite X in L. discriminate L.
Qed.


Lemma find_live_after_filter ty tg now db row :
  find (live_where ty tg now) (filter (fun r => negb (has_key ty tg r)) db ++ [row])
  = if live_where ty tg now row then Some row else None.
Proof.
  induction db as [|r db IH]; [reflexivity|]. cbn [filter].
  destruct (has_key ty tg r) eqn:K; cbn [negb]; [exact IH|].
  cbn [app find]. unfold live_where at 1. rewrite K. cbn [andb orb]. exact IH.
Qed.

Lemma find_live_filtered_out ty tg now db :
  find (live_where ty tg now) (filter (fun r => negb (has_key ty tg r)) db) = None.
Proof.
  induction db as [|r db IH]; [reflexivity|]. cbn [filter].
  destruct (has_key ty tg r) eqn:K; cbn [negb]; [exact IH|].
  cbn [find]. unfold live_where at 1. rewrite K. cbn [andb orb]. exact IH.
Qed.

(** After an issuance, validation for its pair looks at the new challenge
    only, and finds none when the create was refused. *)
Lemma isCodeValid_after_prepare period request type target entropy now db otpConfig
    code now' :
  generateTOTP "SHA256" period entropy now = Ok otpConfig ->
  let out := prepareVerification generateTOTP period request type target entropy now db in
  isCodeValid verifyTOTP code type target now' (table_of out)
  = (if valid_date (now + t_period otpConfig * 1000)
        && (now' <? now + t_period otpConfig * 1000)
     then verifyTOTP code (t_secret otpConfig) (t_algorithm otpConfig)
            (t_period otpConfig) 0 now'
     else Ok false,
     table_of out, [db_findFirst type target now']).
Proof.
  intros G out. subst out. rewrite prepareVerification_run, G. cbv zeta.
  destruct (valid_date (now + t_period otpConfig * 1000)); cbn [table_of fst snd andb].
  - rewrite isCodeValid_run, find_live_after_filter.
    set (row := mkVerification type target _ _ _ _).
    assert (live_where type target now' row = (now' <? now + t_period otpConfig * 1000))
      as ->.
    { unfold live_where.
      replace (has_key type target row) with true
        by (symmetry; apply has_key_spec; split; reflexivity).
      cbn. apply orb_false_r. }
    destruct (now' <? now + t_period otpConfig * 1000); [|reflexivity].
    cbn [v_secret v_algorithm v_period row]. destruct type; reflexivity.
  - rewrite isCodeValid_run, find_live_filtered_out. reflexivity.
Qed.


(** C3, as amended.  The consume step is Prisma's [delete] on the unique
    key, which is not idempotent: on a key without a row it raises and
    changes nothing; on a key with a row it removes the row and returns
    normally.  So on a table with the unique index a second delete of
    the same key raises, whatever the first one did. *)
Theorem consume_needs_a_record ty tg db :
  (existsb (has_key ty tg) db = false ->
   delete ty tg db = (Throw RecordNotFound, db, [db_delete ty tg])) /\
  (existsb (has_key ty tg) db = true ->
   exists r, delete ty tg db = (Ok r, remove_first ty tg db, [db_delete ty tg])) /\
  (unique_keys db = true ->
   delete ty tg (table_of (delete ty tg db))
   = (Throw RecordNotFound, table_of (delete ty tg db), [db_delete ty tg])).
Proof.
  clear generateTOTP verifyTOTP.
  assert (forall db', existsb (has_key ty tg) db' = false ->
                      delete ty tg db' = (Throw RecordNotFound, db', [db_delete ty tg]))
    as Absent.
  { intros db' A. apply existsb_find_none in A. unfold delete. unfold_task. rewrite A.
    reflexivity. }
  assert (existsb (has_key ty tg) db = true ->
          exists r, delete ty tg db = (Ok r, remove_first ty tg db, [db_delete ty tg]))
    as Present.
  { intros E. unfold delete. unfold_task.
    destruct (find (has_key ty tg) db) as [r|] eqn:F.
    - exists r. reflexivity.
    - apply existsb_find_none in F. rewrite F in E. discriminate E. }
  split; [apply Absent|]. split; [exact Present|].
  intros U. apply Absent.
  destruct (existsb (has_key ty tg) db) eqn:E.
  - destruct (Present eq_refl) as [r ->]. cbn [table_of fst snd].
    apply remove_first_absent, U.
  - rewrite (Absent db E). exact E.
Qed.

Lemma find_none_forall {A} (f : A -> bool) l :
  find f l = None <-> forall a, In a l -> f a = false.
Proof.
  split.
  - intros F a I. exact (find_none f l F a I).
  - induction l as [|a l IH]; [reflexivity|]. intros H. cbn [find].
    rewrite (H a (or_introl eq_refl)). apply IH. intros b I. apply H. right. exact I.
Qed.

(** C4.  Expiry semantics of validation.  [isCodeValid] makes one
    lookup, for a row of (type, target) whose [expiresAt] is null or
    strictly later than the current time.  When every row of the pair
    has a non-null [expiresAt] that is not later than the current time
    there is no such row, and the answer is false whatever [verifyTOTP]
    would say of the submitted code; conversely the answer is true only
    on a row of the pair that is live and on which [verifyTOTP] accepts
    the code. *)
Theorem expiry_semantics code ty tg now db :
  (forall r, In r db -> v_type r = ty -> v_target r = tg ->
             exists e, v_expiresAt r = Some e /\ e <= now) ->
  isCodeValid verifyTOTP code ty tg now db = (Ok false, db, [db_findFirst ty tg now]) /\
  (forall code' now',
     result_of (isCodeValid verifyTOTP code' ty tg now' db) = Ok true ->
     exists v,
       In v db /\ v_type v = ty /\ v_target v = tg /\
       (v_expiresAt v = None \/ exists e, v_expiresAt v = Some e /\ now' < e) /\
       verifyTOTP code' (v_secret v) (v_algorithm v) (v_period v) 0 now' = Ok true).
Proof.
  intros Expired. split.
  - rewrite isCodeValid_run.
    assert (find (live_where ty tg now) db = None) as ->; [|reflexivity].
    apply find_none_forall. intros r I.
    destruct (live_where ty tg now r) eqn:L; [|reflexivity].
    apply live_where_spec in L as [K L]. apply has_key_spec in K as [K1 K2].
    destruct (Expired r I K1 K2) as (e & E & Le).
    destruct L as [L | (e' & L & Lt)]; rewrite E in L; [discriminate L|].
    injection L as <-. lia.
  - intros code' now' T. apply isCodeValid_true_row in T as (v & F & T).
    exists v. pose proof (find_some _ _ F) as [I L].
    apply live_where_spec in L as [K L]. apply has_key_spec in K as [K1 K2].
    repeat split; try assumption.
    replace 0 with (typeOTPConfig ty) by (destruct ty; reflexivity). exact T.
Qed.

Lemma accepts_inj body now db d1 d2 :
  accepts verifyTOTP body now db d1 -> accepts verifyTOTP body now db d2 -> d1 = d2.
Proof. intros (s1 & P1 & _ & V1) (s2 & P2 & _ & V2). congruence. Qed.

(** C5.  Ordering and atomicity of consume and dispatch.  In every run
    of [validateRequest], a delete on the table happens only for the
    key of a submission that passed validation, after the lookup on
    which [isCodeValid] answered true, and strictly before the one
    handler call, which is the handler of the submission's type; the
    run then returns that handler's answer.  A run deletes exactly when
    it dispatches, and a run that does neither leaves the table as it
    was. *)
Theorem consume_then_dispatch request body now db :
  let out := validateRequest verifyTOTP request body now db in
  (forall ty tg,
     In (db_delete ty tg) (trace_of out) ->
     exists data resp,
       d_type data = ty /\ d_target data = tg /\
       accepts verifyTOTP body now db data /\
       result_of (isCodeValid verifyTOTP (d_code data) ty tg now db) = Ok true /\
       out = (Ok resp, remove_first ty tg db,
              [db_findFirst ty tg now; db_delete ty tg; call_handler ty])) /\
  ((exists ty tg, In (db_delete ty tg) (trace_of out)) <->
   (exists ty, In (call_handler ty) (trace_of out))) /\
  ((forall ty, ~ In (call_handler ty) (trace_of out)) -> table_of out = db).
Proof.
  intros out. subst out.
  destruct (validateRequest_cases request body now db)
    as [(Tb & Tr & N) | (data & resp & A & R)].
  - assert (forall e, In e (trace_of (validateRequest verifyTOTP request body now db)) ->
                      exists ty tg, e = db_findFirst ty tg now) as Reads.
    { intros e I. rewrite Tr in I.
      destruct (parse_trace now body db) as [E | (ty & tg & E)]; rewrite E in I;
        cbn in I; [destruct I|].
      destruct I as [<-|[]]. exists ty, tg. reflexivity. }
    split; [|split].
    + intros ty tg I. apply Reads in I as (? & ? & I). discriminate I.
    + split.
      * intros (ty & tg & I). apply Reads in I as (? & ? & I). discriminate I.
      * intros (ty & I). apply Reads in I as (? & ? & I). discriminate I.
    + intros _. exact Tb.
  - rewrite R. cbn [trace_of table_of fst snd]. split; [|split].
    + intros ty tg I. destruct I as [I|[I|[I|[]]]]; try discriminate I.
      injection I as <- <-. exists data, resp.
      destruct A as (sub & P & In' & V).
      destruct (parse_value now body db sub data P V) as (_ & C & _ & _).
      repeat split; try assumption. exists sub. repeat split; assumption.
    + split; intros _.
      * exists (d_type data). right. right. left. reflexivity.
      * exists (d_type data), (d_target data). right. left. reflexivity.
    + intros H. exfalso. apply (H (d_type data)). right. right. left. reflexivity.
Qed.

(** The request only matters to the handler: what is read and written
    depends on the body. *)
Lemma validateRequest_any_request request request' body now db :
  table_of (validateRequest verifyTOTP request body now db)
  = table_of (validateRequest verifyTOTP request' body now db) /\
  trace_of (validateRequest verifyTOTP request body now db)
  = trace_of (validateRequest verifyTOTP request' body now db).
Proof.
  destruct (validateRequest_cases request body now db)
    as [(T1 & R1 & N1) | (d1 & r1 & A1 & E1)];
  destruct (validateRequest_cases request' body now db)
    as [(T2 & R2 & N2) | (d2 & r2 & A2 & E2)].
  - rewrite T1, T2, R1, R2. split; reflexivity.
  - destruct (N1 d2 A2).
  - destruct (N2 d1 A1).
  - rewrite E1, E2, (accepts_inj body now db d1 d2 A1 A2). split; reflexivity.
Qed.

(** C6.  GET requests consume challenges.  On a request whose query has
    the code parameter the loader is [validateRequest] on the query,
    as the action is [validateRequest] on the form data: for the same
    body both read and write the table in the same way, and on one
    request that carries the body in both places they answer the same.
    So a GET whose query passes validation looks the challenge up,
    deletes it and calls the flow handler: the table it leaves has one
    row of the pair fewer, which with the unique index is none, and
    validation for the pair then answers false for every code. *)
Theorem get_requests_consume request now db :
  has_code (req_searchParams request) = true ->
  let body := req_searchParams request in
  loader verifyTOTP request now db = validateRequest verifyTOTP request body now db /\
  (forall post_request,
     req_formData post_request = body ->
     table_of (loader verifyTOTP request now db)
     = table_of (action verifyTOTP post_request now db) /\
     trace_of (loader verifyTOTP request now db)
     = trace_of (action verifyTOTP post_request now db)) /\
  (req_formData request = body ->
   loader verifyTOTP request now db = action verifyTOTP request now db) /\
  (forall data,
     accepts verifyTOTP body now db data ->
     exists resp,
       loader verifyTOTP request now db
       = (Ok resp, remove_first (d_type data) (d_target data) db,
          [db_findFirst (d_type data) (d_target data) now;
           db_delete (d_type data) (d_target data);
           call_handler (d_type data)])) /\
  (forall data,
     accepts verifyTOTP body now db data ->
     let db' := table_of (loader verifyTOTP request now db) in
     S (count_key (d_type data) (d_target data) db')
     = count_key (d_type data) (d_target data) db /\
     (unique_keys db = true ->
      existsb (has_key (d_type data) (d_target data)) db' = false /\
      forall code now',
        isCodeValid verifyTOTP code (d_type data) (d_target data) now' db'
        = (Ok false, db', [db_findFirst (d_type data) (d_target data) now']))).
Proof.
  intros H body.
  assert (loader verifyTOTP request now db
          = validateRequest verifyTOTP request body now db) as L
    by (unfold loader; rewrite H; reflexivity).
  assert (forall data,
            accepts verifyTOTP body now db data ->
            exists resp,
              loader verifyTOTP request now db
              = (Ok resp, remove_first (d_type data) (d_target data) db,
                 [db_findFirst (d_type data) (d_target data) now;
                  db_delete (d_type data) (d_target data);
                  call_handler (d_type data)])) as Consumes.
  { intros data A. rewrite L.
    destruct (validateRequest_cases request body now db)
      as [(_ & _ & N) | (data' & resp & A' & R)].
    - destruct (N data A).
    - rewrite (accepts_inj body now db data data' A A'). exists resp. exact R. }
  split; [exact L|]. split; [|split; [|split]].
  - intros post_request F. unfold action. rewrite L, F.
    apply validateRequest_any_request.
  - intros F. unfold action. rewrite L, F. reflexivity.
  - exact Consumes.
  - intros data A db'. subst db'. destruct (Consumes data A) as [resp ->].
    cbn [table_of fst snd]. split.
    + apply count_key_remove_first_same, (accepts_has_row body now db), A.
    + intros U.
      assert (existsb (has_key (d_type data) (d_target data))
                (remove_first (d_type data) (d_target data) db) = false) as Gone
        by (apply remove_first_absent, U).
      split; [exact Gone|]. intros code now'. apply isCodeValid_absent, Gone.
Qed.

(** C7.  Check does not mutate.  [isCodeValid] leaves the table as it
    is and makes one call, a read.  A submission whose validation fails
    (another intent than ["submit"], a body the schema does not accept,
    or [isCodeValid] not answering true) leaves the whole table, hence
    the stored challenge with its secret, period and [expiresAt],
    exactly as it was, and writes nothing. *)
Theorem check_does_not_mutate request body now db :
  (forall code ty tg now',
     table_of (isCodeValid verifyTOTP code ty tg now' db) = db /\
     trace_of (isCodeValid verifyTOTP code ty tg now' db) = [db_findFirst ty tg now']) /\
  (b_intent body <> "submit" \/
   (forall data, fst (VerifySchema body) <> OK false data) \/
   (exists dirty data,
      fst (VerifySchema body) = OK dirty data /\
      result_of (isCodeValid verifyTOTP (d_code data) (d_type data) (d_target data)
                   now db) <> Ok true) ->
   table_of (validateRequest verifyTOTP request body now db) = db /\
   forallb (fun e => negb (is_db_write e))
     (trace_of (validateRequest verifyTOTP request body now db)) = true).
Proof.
  split.
  - intros code ty tg now'. rewrite isCodeValid_run. split; reflexivity.
  - intros Fails.
    destruct (validateRequest_cases request body now db)
      as [(T & R & _) | (data & resp & (sub & P & I & V) & _)].
    + split; [exact T|]. rewrite R.
      destruct (parse_trace now body db) as [E | (ty & tg & E)]; rewrite E; reflexivity.
    + exfalso.
      destruct (parse_value now body db sub data P V) as (Sch & C & _ & I').
      destruct Fails as [F | [F | (dirty & data' & F & F')]].
      * apply F. rewrite <- I'. exact I.
      * exact (F data Sch).
      * rewrite Sch in F. injection F as <- <-. exact (F' C).
Qed.

(** C8, as amended.  A submitted code whose length is not 6 is never
    accepted: the answer is a JSON response without a value that
    carries the length issue of the code (the error response with
    status 400 when the intent is ["submit"]), unless [verifyTOTP]
    raises; nothing is deleted, no handler is called and the table is
    left as it was.  The store is still read: zod runs the refinement
    on a dirty parse, so when type, target and redirectTo are well
    formed [isCodeValid] is called and makes its lookup; otherwise the
    store is not accessed. *)
Theorem malformed_code_is_rejected request body now db s :
  b_code body = Text s ->
  String.length s <> 6%nat ->
  let out := validateRequest verifyTOTP request body now db in
  table_of out = db /\
  (forall data, ~ accepts verifyTOTP body now db data) /\
  (forall resp,
     result_of out = Ok resp ->
     exists st sub http,
       resp = json st sub http /\ value sub = None /\
       (In (mkIssue "code" too_small) (error sub) \/
        In (mkIssue "code" too_big) (error sub)) /\
       (b_intent body = "submit" -> st = "error" /\ http = 400)) /\
  trace_of out
  = match fst (VerifySchema body) with
    | INVALID => []
    | OK _ data => [db_findFirst (d_type data) (d_target data) now]
    end /\
  (forall ty tg,
     b_type body = Text (type_name ty) ->
     b_target body = Text tg ->
     b_redirectTo body <> NotText ->
     trace_of out = [db_findFirst ty tg now]).
Proof.
  clear generateTOTP. intros C Len out.
  assert (exists issues,
            (In (mkIssue "code" too_small) issues \/ In (mkIssue "code" too_big) issues) /\
            (VerifySchema body = (INVALID, issues) \/
             exists data, VerifySchema body = (OK true data, issues))) as Sch.
  { unfold VerifySchema. rewrite C. unfold z_string_min_max.
    set (len_issues := _ ++ _).
    assert (len_issues <> []) as NE.
    { subst len_issues.
      destruct (Nat.ltb_spec (String.length s) 6) as [|G]; [discriminate|].
      destruct (Nat.ltb_spec 6 (String.length s)); [discriminate|]. lia. }
    assert (In (mkIssue "code" too_small) len_issues \/
            In (mkIssue "code" too_big) len_issues) as I.
    { subst len_issues.
      destruct (Nat.ltb (String.length s) 6); [left; left; reflexivity|].
      destruct (Nat.ltb 6 (String.length s)); [right; left; reflexivity|].
      destruct (NE eq_refl). }
    assert (negb (is_nil len_issues) = true) as ->
      by (destruct len_issues; [destruct (NE eq_refl) | reflexivity]).
    destruct (z_enum_types typeQueryParam (b_type body)) as [[|dt t] it];
      destruct (z_string targetQueryParam (b_target body)) as [[|dg g] ig];
      destruct (z_string_optional redirectToQueryParam (b_redirectTo body))
        as [[|dr r] ir];
      exists (len_issues ++ it ++ ig ++ ir);
      (split; [rewrite !in_app_iff; tauto|]);
      first [left; reflexivity | right; eexists; reflexivity]. }
  destruct Sch as (issues & I & Sch).
  assert (forall data, ~ accepts verifyTOTP body now db data) as N.
  { intros data (sub & P & _ & V).
    destruct (parse_value now body db sub data P V) as (F & _).
    destruct Sch as [Sch | (data' & Sch)]; rewrite Sch in F; discriminate F. }
  assert (trace_of out
          = match fst (VerifySchema body) with
            | INVALID => []
            | OK _ data => [db_findFirst (d_type data) (d_target data) now]
            end) as Tr.
  { destruct (validateRequest_cases request body now db)
      as [(_ & T & _) | (data & _ & A & _)]; [|destruct (N data A)].
    subst out. rewrite T, parse_run.
    destruct (VerifySchema body) as [[|dirty d] iss]; reflexivity. }
  split; [|split; [exact N|split; [|split; [exact Tr|]]]].
  - destruct (validateRequest_cases request body now db)
      as [(T & _) | (data & _ & A & _)]; [exact T | destruct (N data A)].
  - intros resp R. subst out.
    pose proof (validateRequest_run request body now db) as Run. cbv zeta in Run.
    rewrite parse_run in Run.
    destruct Sch as [Sch | (data & Sch)]; rewrite Sch in Run;
      cbn [result_of trace_of fst snd] in Run.
    + cbn [intent value] in Run.
      destruct (String.eqb (b_intent body) "submit") eqn:E; cbn [negb] in Run;
        rewrite Run in R; injection R as <-; do 3 eexists;
        (split; [reflexivity|]); (split; [reflexivity|]); (split; [exact I|]).
      * intros _. split; reflexivity.
      * intros B. rewrite B in E. discriminate E.
    + destruct (result_of (isCodeValid verifyTOTP (d_code data) (d_type data)
                             (d_target data) now db)) as [[|]|e];
        cbn [intent value] in Run.
      * destruct (String.eqb (b_intent body) "submit") eqn:E; cbn [negb] in Run;
          rewrite Run in R; injection R as <-; do 3 eexists;
          (split; [reflexivity|]); (split; [reflexivity|]); (split; [exact I|]).
        -- intros _. split; reflexivity.
        -- intros B. rewrite B in E. discriminate E.
      * destruct (String.eqb (b_intent body) "submit") eqn:E; cbn [negb] in Run;
          rewrite Run in R; injection R as <-; do 3 eexists;
          (split; [reflexivity|]); (split; [reflexivity|]);
          (split; [cbn [error]; rewrite !in_app_iff; tauto|]).
        -- intros _. split; reflexivity.
        -- intros B. rewrite B in E. discriminate E.
      * rewrite Run in R. discriminate R.
  - intros ty tg Ty Tg Rd. rewrite Tr. unfold VerifySchema.
    rewrite C, Ty, Tg. unfold z_string_min_max, z_enum_types, z_string.
    assert (type_of_name (type_name ty) = Some ty) as -> by (destruct ty; reflexivity).
    destruct (b_redirectTo body); try reflexivity. destruct (Rd eq_refl).
Qed.

End RouteFacts.

(** ** The TOTP primitive *)

Lemma six_digits_length n : String.length (Totp.six_digits n) = 6%nat.
Proof. reflexivity. Qed.

Lemma diff_bits_refl s : Totp.diff_bits s s = 0%N.
Proof.
  induction s as [|c s IH]; [reflexivity|].
  cbn [Totp.diff_bits]. rewrite N.lxor_nilpotent, IH. reflexivity.
Qed.

Lemma constant_time_eq_refl s : Totp.constant_time_eq s s = true.
Proof.
  unfold Totp.constant_time_eq. rewrite Nat.eqb_refl, diff_bits_refl. reflexivity.
Qed.

Lemma diff_bits_zero a :
  forall b, String.length a = String.length b -> Totp.diff_bits a b = 0%N -> a = b.
Proof.
  induction a as [|x a IH]; intros [|y b] L D; try discriminate L; [reflexivity|].
  cbn [Totp.diff_bits] in D. apply N.lor_eq_0_iff in D as [D1 D2].
  apply N.lxor_eq in D1.
  assert (x = y) as -> by (rewrite <- (ascii_N_embedding x), D1; apply ascii_N_embedding).
  f_equal. apply IH; [injection L as L; exact L | exact D2].
Qed.

(** The comparison decides equality of the two strings. *)
Lemma constant_time_eq_spec a b : Totp.constant_time_eq a b = true <-> a = b.
Proof.
  split.
  - unfold Totp.constant_time_eq. intros H. apply andb_true_iff in H as [L D].
    apply Nat.eqb_eq in L. apply N.eqb_eq in D. exact (diff_bits_zero a b L D).
  - intros ->. apply constant_time_eq_refl.
Qed.

Section TotpFacts.

Variable keyed_hash : string -> string -> Z -> Z.

(** With window 0 the only step tried is the current one. *)
Lemma verify_window_0 code secret algorithm period at_time :
  0 < period ->
  Totp.verify keyed_hash code secret algorithm period 0 at_time
  = Some (Nat.eqb (String.length code) 6
          && Totp.constant_time_eq
               (Totp.six_digits
                  (keyed_hash algorithm secret (Totp.time_step period at_time)))
               code).
Proof.
  intros P. unfold Totp.verify.
  destruct (Z.leb_spec period 0) as [|_]; [lia|].
  set (step := Totp.time_step period at_time).
  change (Totp.window_steps step 0) with [step - 0 + 0].
  cbn [map fold_left orb]. replace (step - 0 + 0) with step by lia. reflexivity.
Qed.

(** C9.  TOTP round trip: for every secret, algorithm, time and every
    positive period, [generate] produces a code, and [verify] of that
    code with the same secret, algorithm and period, window 0, at the
    same time is true. *)
Theorem totp_round_trip secret algorithm period at_time :
  0 < period ->
  exists code,
    Totp.generate keyed_hash secret algorithm period at_time = Some code /\
    Totp.verify keyed_hash code secret algorithm period 0 at_time = Some true.
Proof.
  intros P. unfold Totp.generate.
  destruct (Z.leb_spec period 0) as [|_]; [lia|].
  eexists. split; [reflexivity|].
  rewrite (verify_window_0 _ _ _ _ _ P), six_digits_length, constant_time_eq_refl.
  reflexivity.
Qed.

(** With window 0, [verify] accepts the generated code and no other. *)
Lemma verify_window_0_exact code secret algorithm period at_time :
  0 < period ->
  Totp.verify keyed_hash code secret algorithm period 0 at_time = Some true <->
  Totp.generate keyed_hash secret algorithm period at_time = Some code.
Proof.
  intros P. rewrite (verify_window_0 _ _ _ _ _ P). unfold Totp.generate.
  destruct (Z.leb_spec period 0) as [|_]; [lia|]. split.
  - intros [= H]. apply andb_true_iff in H as [_ H].
    apply constant_time_eq_spec in H. rewrite H. reflexivity.
  - intros [= <-]. rewrite six_digits_length, constant_time_eq_refl. reflexivity.
Qed.

(** The primitive accepts only codes of six characters. *)
Lemma verifyTOTP_length code secret algorithm period window now :
  Totp.verifyTOTP keyed_hash code secret algorithm period window now = Ok true ->
  String.length code = 6%nat.
Proof.
  unfold Totp.verifyTOTP, Totp.verify. destruct (period <=? 0); [discriminate|].
  intros [= H]. apply andb_true_iff in H as [H _]. apply Nat.eqb_eq. exact H.
Qed.

(** With this primitive a submission on which [isCodeValid] answers true
    passes validation: its code has six characters, so the schema has no
    issue with it. *)
Lemma isCodeValid_true_accepts body now db dirty data :
  b_intent body = "submit" ->
  fst (VerifySchema body) = OK dirty data ->
  result_of (isCodeValid (Totp.verifyTOTP keyed_hash) (d_code data) (d_type data)
               (d_target data) now db) = Ok true ->
  accepts (Totp.verifyTOTP keyed_hash) body now db data.
Proof.
  intros I Sch C. apply accepts_iff. split; [exact I|]. split; [|exact C].
  destruct (VerifySchema_ok body dirty data Sch) as (_ & _ & _ & D).
  apply isCodeValid_true_row in C as (v & _ & C).
  apply verifyTOTP_length in C. rewrite C in D. cbn in D. subst dirty. exact Sch.
Qed.

(** End to end: the code [prepareVerification] hands out, when its expiry
    is a valid Date, is valid for its pair at every later time of the same
    time step before the expiry. *)
Lemma issued_code_is_valid period request ty tg entropy now db now' :
  0 < period ->
  valid_date (now + period * 1000) = true ->
  Totp.time_step period (now' / 1000) = Totp.time_step period (now / 1000) ->
  now' < now + period * 1000 ->
  let out :=
    prepareVerification (Totp.generateTOTP keyed_hash) period request ty tg entropy
      now db in
  exists prepared,
    result_of out = Ok prepared /\
    result_of (isCodeValid (Totp.verifyTOTP keyed_hash) (p_otp prepared) ty tg now'
                 (table_of out)) = Ok true.
Proof.
  intros P V Step Live out.
  set (code := Totp.six_digits
                 (keyed_hash "SHA256" entropy (Totp.time_step period (now / 1000)))).
  assert (Totp.generateTOTP keyed_hash "SHA256" period entropy now
          = Ok (mkTOTP code entropy "SHA256" period)) as G.
  { unfold Totp.generateTOTP, Totp.generate.
    destruct (Z.leb_spec period 0) as [|_]; [lia | reflexivity]. }
  exists (mkPrepared code (getRedirectToUrl request ty tg)
            (searchParams_set (getRedirectToUrl request ty tg) codeQueryParam code)).
  split.
  - subst out. rewrite prepareVerification_run, G. cbn [t_period]. rewrite V.
    reflexivity.
  - subst out. cbn [p_otp].
    rewrite (isCodeValid_after_prepare (Totp.generateTOTP keyed_hash)
               (Totp.verifyTOTP keyed_hash) period request ty tg entropy now db
               _ code now' G).
    cbn [t_period t_secret t_algorithm result_of fst]. rewrite V. cbn [andb].
    destruct (Z.ltb_spec now' (now + period * 1000)) as [_|]; [|lia].
    unfold Totp.verifyTOTP. rewrite (verify_window_0 _ _ _ _ _ P), Step.
    fold code. rewrite constant_time_eq_refl. reflexivity.
Qed.

(** After a challenge was issued, a code is valid for its pair exactly
    when the challenge has not expired and the code is the one of its
    secret in the current time step: codes handed out earlier for the
    pair play no part. *)
Lemma valid_after_issue_iff period request ty tg entropy now db code now' :
  0 < period ->
  valid_date (now + period * 1000) = true ->
  let out :=
    prepareVerification (Totp.generateTOTP keyed_hash) period request ty tg entropy
      now db in
  result_of (isCodeValid (Totp.verifyTOTP keyed_hash) code ty tg now' (table_of out))
  = Ok true <->
  now' < now + period * 1000 /\
  Totp.generate keyed_hash entropy "SHA256" period (now' / 1000) = Some code.
Proof.
  intros P V out. subst out.
  assert (Totp.generateTOTP keyed_hash "SHA256" period entropy now
          = Ok (mkTOTP (Totp.six_digits
                          (keyed_hash "SHA256" entropy
                             (Totp.time_step period (now / 1000))))
                  entropy "SHA256" period)) as G.
  { unfold Totp.generateTOTP, Totp.generate.
    destruct (Z.leb_spec period 0) as [|_]; [lia | reflexivity]. }
  rewrite (isCodeValid_after_prepare (Totp.generateTOTP keyed_hash)
             (Totp.verifyTOTP keyed_hash) period request ty tg entropy now db
             _ code now' G).
  cbn [t_period t_secret t_algorithm result_of fst]. rewrite V. cbn [andb].
  rewrite <- (verify_window_0_exact code entropy "SHA256" period (now' / 1000) P).
  unfold Totp.verifyTOTP.
  destruct (Z.ltb_spec now' (now + period * 1000)) as [L|L].
  - destruct (Totp.verify keyed_hash code entropy "SHA256" period 0 (now' / 1000))
      as [[|]|]; split; try (intros [_ H]; discriminate H); try discriminate.
    + intros _. split; [exact L | reflexivity].
    + reflexivity.
  - split; [discriminate|]. intros [H _]. lia.
Qed.

End TotpFacts.

(** ** Concrete runs *)

Lemma sample_accepted :
  accepts verifyTOTP (Sample.form "053957") (Sample.t0 + 10000) Sample.issued Sample.data.
Proof.
  eexists. split; [vm_compute; reflexivity|]. split; reflexivity.
Defined.





(** With a period whose expiry is past the last valid Date the create is
    refused after the delete: the call raises and the challenge that was
    in the table is gone. *)
Lemma refused_create_leaves_no_row :
  valid_date (Sample.t0 + 8640000000000000 * 1000) = false /\
  prepareVerification generateTOTP 8640000000000000 (Sample.request (Sample.form ""))
    onboarding "a@x.com" "secret-00823" Sample.t0 Sample.issued
  = (Throw ValidationError, [],
     [db_deleteMany onboarding "a@x.com";
      db_create (mkVerification onboarding "a@x.com" "secret-00823" "SHA256"
                   8640000000000000 (Some (Sample.t0 + 8640000000000000 * 1000)))]).
Proof. split; vm_compute; reflexivity. Qed.

(** Prisma's [delete] raises on a key that has no row. *)
Lemma delete_absent_raises :
  delete onboarding "a@x.com" []
  = (Throw RecordNotFound, [], [db_delete onboarding "a@x.com"]).
Proof. reflexivity. Qed.

(** Two requests with the code of [Sample.issued], interleaved: both
    pass validation on the table as issued, the first one consumes the
    challenge, and the delete of the second one then raises. *)
Lemma interleaved_consume_raises :
  accepts verifyTOTP (Sample.form "053957") (Sample.t0 + 10000) Sample.issued
    Sample.data /\
  accepts verifyTOTP (Sample.form "053957") (Sample.t0 + 10001) Sample.issued
    Sample.data /\
  delete onboarding "a@x.com"
    (table_of (validateRequest verifyTOTP (Sample.request (Sample.form "053957"))
                 (Sample.form "053957") (Sample.t0 + 10000) Sample.issued))
  = (Throw RecordNotFound, [], [db_delete onboarding "a@x.com"]).
Proof.
  split; [exact sample_accepted|]. split; [|reflexivity].
  eexists. split; [vm_compute; reflexivity|]. split; reflexivity.
Qed.

(** At its [expiresAt] the challenge of [Sample.issued] is rejected with
    the code that [verifyTOTP] accepts for that time. *)
Lemma expiry_semantics_witness :
  verifyTOTP "810828" "secret-00678" "SHA256" 600 0 (Sample.t0 + 600000) = Ok true /\
  isCodeValid verifyTOTP "810828" onboarding "a@x.com" (Sample.t0 + 600000) Sample.issued
  = (Ok false, Sample.issued, [db_findFirst onboarding "a@x.com" (Sample.t0 + 600000)]).
Proof.
  split; [vm_compute; reflexivity|].
  apply (expiry_semantics verifyTOTP "810828" onboarding "a@x.com"
           (Sample.t0 + 600000) Sample.issued).
  intros r [<-|[]] _ _. exists (Sample.t0 + 600000). split; [reflexivity|].
  apply Z.le_refl.
Defined.

(** A GET with the code in its query consumes the challenge. *)
Lemma get_requests_consume_witness :
  has_code (Sample.form "053957") = true /\
  loader verifyTOTP (Sample.request (Sample.form "053957")) (Sample.t0 + 10000)
    Sample.issued
  = action verifyTOTP (Sample.request (Sample.form "053957")) (Sample.t0 + 10000)
      Sample.issued /\
  trace_of (loader verifyTOTP (Sample.request (Sample.form "053957"))
              (Sample.t0 + 10000) Sample.issued)
  = [db_findFirst onboarding "a@x.com" (Sample.t0 + 10000);
     db_delete onboarding "a@x.com"; call_handler onboarding] /\
  count_key onboarding "a@x.com" Sample.issued = 1%nat /\
  existsb (has_key onboarding "a@x.com")
    (table_of (loader verifyTOTP (Sample.request (Sample.form "053957"))
                 (Sample.t0 + 10000) Sample.issued)) = false.
Proof.
  split; [reflexivity|].
  destruct (get_requests_consume verifyTOTP (Sample.request (Sample.form "053957"))
              (Sample.t0 + 10000) Sample.issued eq_refl)
    as (_ & _ & Same & Consumes & Gone).
  split; [exact (Same eq_refl)|].
  split; [destruct (Consumes Sample.data sample_accepted) as [resp ->]; reflexivity|].
  split; [reflexivity|].
  exact (proj1 (proj2 (Gone Sample.data sample_accepted) eq_refl)).
Defined.

(** A code of four characters is looked up in the store. *)
Lemma short_code_reads_the_store :
  String.length "0539" = 4%nat /\
  filter is_db_access
    (trace_of (action verifyTOTP (Sample.request (Sample.form "0539"))
                 (Sample.t0 + 10000) Sample.issued))
  = [db_findFirst onboarding "a@x.com" (Sample.t0 + 10000)].
Proof. vm_compute. split; reflexivity. Qed.

Lemma malformed_code_is_rejected_witness :
  b_code (Sample.form "0539") = Text "0539" /\
  String.length "0539" <> 6%nat /\
  table_of (validateRequest verifyTOTP (Sample.request (Sample.form "0539"))
              (Sample.form "0539") (Sample.t0 + 10000) Sample.issued)
  = Sample.issued.
Proof.
  split; [reflexivity|].
  assert (String.length "0539" <> 6%nat) as L by (cbn; lia).
  split; [exact L|].
  exact (proj1 (malformed_code_is_rejected verifyTOTP
                  (Sample.request (Sample.form "0539")) (Sample.form "0539")
                  (Sample.t0 + 10000) Sample.issued "0539" eq_refl L)).
Defined.

Lemma totp_round_trip_witness :
  0 < 600 /\
  Totp.generate Sha256.keyed_hash "secret-00678" "SHA256" 600 1700000000 = Some "053957" /\
  Totp.verify Sha256.keyed_hash "053957" "secret-00678" "SHA256" 600 0 1700000000
  = Some true.
Proof.
  assert (0 < 600) as P by lia.
  split; [exact P|].
  destruct (totp_round_trip Sha256.keyed_hash "secret-00678" "SHA256" 600 1700000000 P)
    as (code & G & V).
  assert (Totp.generate Sha256.keyed_hash "secret-00678" "SHA256" 600 1700000000
          = Some "053957") as G' by (vm_compute; reflexivity).
  split; [exact G'|].
  rewrite G' in G. injection G as <-. exact V.
Defined.

(** The challenge of [Sample.issued] can be deleted once: the second
    delete raises. *)
Lemma consume_needs_a_record_witness :
  unique_keys Sample.issued = true /\
  table_of (delete onboarding "a@x.com" Sample.issued) = [] /\
  delete onboarding "a@x.com" (table_of (delete onboarding "a@x.com" Sample.issued))
  = (Throw RecordNotFound, [], [db_delete onboarding "a@x.com"]).
Proof.
  split; [reflexivity|]. split; [reflexivity|].
  exact (proj2 (proj2 (consume_needs_a_record onboarding "a@x.com" Sample.issued))
           eq_refl).
Defined.

Lemma consume_then_dispatch_witness :
  (exists ty, In (call_handler ty)
                (trace_of (validateRequest verifyTOTP
                             (Sample.request (Sample.form "053957"))
                             (Sample.form "053957") (Sample.t0 + 10000) Sample.issued))) /\
  table_of (validateRequest verifyTOTP (Sample.request (Sample.form "000000"))
              (Sample.form "000000") (Sample.t0 + 10000) Sample.issued)
  = Sample.issued.
Proof.
  split.
  - apply (consume_then_dispatch verifyTOTP (Sample.request (Sample.form "053957"))
             (Sample.form "053957") (Sample.t0 + 10000) Sample.issued).
    exists onboarding, "a@x.com". vm_compute. right. left. reflexivity.
  - apply (consume_then_dispatch verifyTOTP (Sample.request (Sample.form "000000"))
             (Sample.form "000000") (Sample.t0 + 10000) Sample.issued).
    intros ty. vm_compute. intros [H|[]]. discriminate H.
Defined.

(** A wrong code leaves the challenge of [Sample.issued] in place. *)
Lemma check_does_not_mutate_witness :
  result_of (isCodeValid verifyTOTP "000000" onboarding "a@x.com" (Sample.t0 + 10000)
               Sample.issued) = Ok false /\
  table_of (validateRequest verifyTOTP (Sample.request (Sample.form "000000"))
              (Sample.form "000000") (Sample.t0 + 10000) Sample.issued)
  = Sample.issued.
Proof.
  assert (result_of (isCodeValid verifyTOTP "000000" onboarding "a@x.com"
                       (Sample.t0 + 10000) Sample.issued) = Ok false) as F
    by (vm_compute; reflexivity).
  split; [exact F|].
  apply (check_does_not_mutate verifyTOTP (Sample.request (Sample.form "000000"))
           (Sample.form "000000") (Sample.t0 + 10000) Sample.issued).
  right. right. exists false, (mkVerifyData "000000" onboarding "a@x.com" None).
  split; [reflexivity|].
  change (result_of (isCodeValid verifyTOTP "000000" onboarding "a@x.com"
                       (Sample.t0 + 10000) Sample.issued) <> Ok true).
  rewrite F. discriminate.
Defined.


(** * Further results *)

(** ** The schema and the submission *)

Lemma type_of_name_spec s t : type_of_name s = Some t <-> s = type_name t.
Proof.
  split.
  - unfold type_of_name.
    destruct (String.eqb_spec s "forgot-password") as [->|_];
      [intros [= <-]; reflexivity|].
    destruct (String.eqb_spec s "onboarding") as [->|_]; [intros [= <-]; reflexivity|].
    destruct (String.eqb_spec s "change-email") as [->|_]; [intros [= <-]; reflexivity|].
    discriminate.
  - intros ->. destruct t; reflexivity.
Qed.

Lemma type_of_name_types s : type_of_name s <> None <-> In s types.
Proof.
  split.
  - destruct (type_of_name s) as [t|] eqn:T; [|intros H; destruct (H eq_refl)].
    intros _. apply type_of_name_spec in T as ->. destruct t; cbn; tauto.
  - intros [<-|[<-|[<-|[]]]]; discriminate.
Qed.

Lemma VerifySchema_valid_iff body data :
  fst (VerifySchema body) = OK false data <->
  b_code body = Text (d_code data) /\
  String.length (d_code data) = 6%nat /\
  b_type body = Text (type_name (d_type data)) /\
  b_target body = Text (d_target data) /\
  b_redirectTo body = match d_redirectTo data with Some r => Text r | None => Absent end.
Proof.
  unfold VerifySchema, z_string_min_max, z_enum_types, z_string, z_string_optional.
  destruct body as [i c t g r]. cbn [b_code b_type b_target b_redirectTo].
  destruct data as [dc dt dg dr]. cbn [d_code d_type d_target d_redirectTo]. split.
  - destruct c as [|c|]; destruct t as [|t|]; destruct g as [|g|];
      destruct r as [|r|]; cbn [fst]; try discriminate;
      destruct (type_of_name t) as [ty|] eqn:T; cbn [fst]; try discriminate;
      apply type_of_name_spec in T; subst t;
      destruct (Nat.ltb_spec (String.length c) 6);
      destruct (Nat.ltb_spec 6 (String.length c)); cbn; try discriminate;
      intros [= <- <- <- <-]; repeat split; lia.
  - intros (-> & L & -> & -> & ->).
    assert (type_of_name (type_name dt) = Some dt) as -> by (destruct dt; reflexivity).
    rewrite L. destruct dr; reflexivity.
Qed.

Lemma VerifySchema_invalid_iff body :
  fst (VerifySchema body) = INVALID <->
  (forall s, b_code body <> Text s) \/
  (forall s, b_type body = Text s -> ~ In s types) \/
  (forall s, b_target body <> Text s) \/
  b_redirectTo body = NotText.
Proof.
  unfold VerifySchema, z_string_min_max, z_enum_types, z_string, z_string_optional.
  destruct body as [i c t g r]. cbn [b_code b_type b_target b_redirectTo].
  destruct c as [|c|]; destruct t as [|t|]; destruct g as [|g|];
    destruct r as [|r|]; try destruct (type_of_name t) as [ty|] eqn:T; cbn [fst];
    (split;
     [ intros H; try discriminate H;
       first [ left; intros s; discriminate
             | right; left; intros s; discriminate
             | right; left; intros s [= <-] I; apply type_of_name_types in I;
               exact (I T)
             | right; right; left; intros s; discriminate
             | right; right; right; reflexivity ]
     | intros H;
       first [ reflexivity
             | destruct H as [C | [Ty | [G | R]]];
               [ destruct (C c eq_refl)
               | destruct (Ty t eq_refl); apply type_of_name_types; rewrite T;
                 discriminate
               | destruct (G g eq_refl)
               | discriminate R ] ] ]).
Qed.

Lemma VerifySchema_no_issue_iff body :
  snd (VerifySchema body) = [] <-> exists data, fst (VerifySchema body) = OK false data.
Proof.
  unfold VerifySchema, z_string_min_max, z_enum_types, z_string, z_string_optional.
  destruct body as [i c t g r]. cbn [b_code b_type b_target b_redirectTo].
  destruct c as [|c|]; destruct t as [|t|]; destruct g as [|g|];
    destruct r as [|r|]; try destruct (type_of_name t) as [ty|] eqn:T;
    try (destruct (Nat.ltb_spec (String.length c) 6) as [L1|L1];
         destruct (Nat.ltb_spec 6 (String.length c)) as [L2|L2]);
    cbn;
    (split;
     [ intros H; first [ discriminate H | eexists; reflexivity ]
     | intros [data H]; first [ discriminate H | reflexivity ] ]).
Qed.

(** The schema itself never reports the issue of the refinement. *)
Lemma VerifySchema_no_custom_issue body path message :
  ~ In (mkIssue path (custom message)) (snd (VerifySchema body)).
Proof.
  unfold VerifySchema, z_string_min_max, z_enum_types, z_string, z_string_optional.
  destruct body as [i c t g r]. cbn [b_code b_type b_target b_redirectTo].
  destruct c as [|c|]; destruct t as [|t|]; destruct g as [|g|];
    destruct r as [|r|]; try destruct (type_of_name t) as [ty|];
    try (destruct (Nat.ltb (String.length c) 6);
         destruct (Nat.ltb 6 (String.length c)));
    cbn; intros H; repeat (destruct H as [H|H]; [discriminate H|]); exact H.
Qed.

(** X1.  What [VerifySchema] accepts.  The parse is valid exactly when
    the code is a string of six characters, the type is one of the three
    names of [types], the target is a string and redirectTo is absent or
    a string; the value then holds these fields.  The parse aborts
    exactly when the code or the target is no string, the type is not one
    of [types], or redirectTo is present and no string.  The list of
    issues is empty exactly when the parse is valid. *)
Theorem VerifySchema_characterised body :
  (forall data,
     fst (VerifySchema body) = OK false data <->
     b_code body = Text (d_code data) /\
     String.length (d_code data) = 6%nat /\
     b_type body = Text (type_name (d_type data)) /\
     b_target body = Text (d_target data) /\
     b_redirectTo body
     = match d_redirectTo data with Some r => Text r | None => Absent end) /\
  (fst (VerifySchema body) = INVALID <->
   (forall s, b_code body <> Text s) \/
   (forall s, b_type body = Text s -> ~ In s types) \/
   (forall s, b_target body <> Text s) \/
   b_redirectTo body = NotText) /\
  (snd (VerifySchema body) = [] <-> exists data, fst (VerifySchema body) = OK false data).
Proof.
  split; [|split].
  - intros data. apply VerifySchema_valid_iff.
  - apply VerifySchema_invalid_iff.
  - apply VerifySchema_no_issue_iff.
Qed.

(** ** Sessions and search parameters *)




(** ** Submissions and responses *)

Section FurtherRoute.

Variable generateTOTP : string -> Z -> string -> Date -> Result TOTP.
Variable verifyTOTP : string -> string -> string -> Z -> Z -> Date -> Result bool.

Lemma parse_value_iff_no_error now body db sub :
  result_of (parse verifyTOTP now body db) = Ok sub ->
  (value sub = None <-> error sub <> []) /\
  (forall data, value sub = Some data -> error sub = []).
Proof.
  clear generateTOTP. rewrite parse_run.
  pose proof (VerifySchema_no_issue_iff body) as NI.
  destruct (VerifySchema body) as [[|dirty d] issues]; cbn [fst snd result_of] in *.
  - intros [= <-]. cbn [value error].
    assert (issues <> []) as NE.
    { intros E. apply NI in E as [data E]. discriminate E. }
    split; [tauto | discriminate].
  - destruct (result_of (isCodeValid verifyTOTP (d_code d) (d_type d) (d_target d) now db))
      as [[|]|e]; [| |discriminate].
    + destruct dirty; intros [= <-]; cbn [value error].
      * assert (issues <> []) as NE.
        { intros E. apply NI in E as [data E]. discriminate E. }
        split; [tauto | discriminate].
      * split; [|reflexivity]. split; [discriminate | intros H; destruct (H eq_refl)].
    + intros [= <-]. cbn [value error]. split; [|discriminate].
      split; [|reflexivity]. intros _ E. apply app_eq_nil in E as [_ E]. discriminate E.
Qed.

(** X2.  What [parse] returns.  The submission echoes the intent and the
    body.  It has a value or issues, never both and never neither: the
    value is missing exactly when the list of issues is not empty.  A
    value is the one the schema made of the body.  The issue "Invalid
    code" is reported exactly when the schema did not abort and
    [isCodeValid] answered false. *)
Theorem submission_value_xor_error now body db sub :
  result_of (parse verifyTOTP now body db) = Ok sub ->
  intent sub = b_intent body /\
  payload sub = body /\
  (value sub = None <-> error sub <> []) /\
  (forall data, value sub = Some data -> fst (VerifySchema body) = OK false data) /\
  (In (mkIssue "code" (custom "Invalid code")) (error sub) <->
   exists dirty data,
     fst (VerifySchema body) = OK dirty data /\
     result_of (isCodeValid verifyTOTP (d_code data) (d_type data) (d_target data)
                  now db) = Ok false).
Proof.
  clear generateTOTP. intros P.
  destruct (parse_value_iff_no_error now body db sub P) as [VE _].
  split; [|split; [|split; [exact VE|split]]]; revert P; rewrite parse_run;
    pose proof (VerifySchema_no_custom_issue body "code" "Invalid code") as NC;
    destruct (VerifySchema body) as [[|dirty d] issues]; cbn [fst snd result_of] in *;
    try (destruct (result_of (isCodeValid verifyTOTP (d_code d) (d_type d)
                                (d_target d) now db)) as [[|]|e] eqn:V;
         [destruct dirty| |]);
    try discriminate; intros [= <-]; cbn [intent payload value error];
    try reflexivity; try discriminate.
  - intros data [= <-]. reflexivity.
  - split; [intros I; destruct (NC I) | intros (? & ? & E & _); discriminate E].
  - split; [intros I; destruct (NC I)|].
    intros (? & ? & [= _ <-] & E). rewrite V in E. discriminate E.
  - split; [intros []|].
    intros (? & ? & [= _ <-] & E). rewrite V in E. discriminate E.
  - split.
    + intros _. exists dirty, d. split; [reflexivity | exact V].
    + intros _. apply in_or_app. right. left. reflexivity.
Qed.

(** An accepted submission, with the response the handler gives. *)
Lemma validateRequest_accepted request body now db data :
  accepts verifyTOTP body now db data ->
  exists sub,
    result_of (parse verifyTOTP now body db) = Ok sub /\
    value sub = Some data /\
    validateRequest verifyTOTP request body now db
    = (Ok (match d_type data with
           | onboarding =>
               redirect "/onboarding"
                 (set_param onboardingEmailSessionKey (d_target data)
                    (req_session request))
           | ty => handled ty (mkArgs request sub body)
           end),
       remove_first (d_type data) (d_target data) db,
       [db_findFirst (d_type data) (d_target data) now;
        db_delete (d_type data) (d_target data);
        call_handler (d_type data)]).
Proof.
  clear generateTOTP. intros (sub & P & I & V). exists sub.
  split; [exact P|]. split; [exact V|].
  destruct (parse_value verifyTOTP now body db sub data P V) as (_ & C & T & _).
  pose proof (parse_frame verifyTOTP now body db) as F.
  apply isCodeValid_true_row in C as (v & L & _).
  apply find_live_has_key in L as [r L].
  unfold validateRequest. unfold bind at 1.
  destruct (parse verifyTOTP now body db) as [[res db1] tr1].
  cbn [result_of table_of trace_of fst snd] in *. subst res db1 tr1.
  rewrite I, V. cbn [String.eqb Ascii.eqb Bool.eqb negb andb].
  unfold delete, handleForgotPasswordVerification, handleOnboardingVerification,
    handleChangeEmailVerification. unfold_task. rewrite L.
  destruct (d_type data); cbn [a_submission a_request]; rewrite ?V; reflexivity.
Qed.

(** X3.  What [validateRequest] answers.  When it answers at all, it
    answers from the submission [parse] returned, in one of three ways:
    with another intent than ["submit"], status idle (200), whatever
    the code; with intent ["submit"] and no value, status error (400),
    and the submission then carries at least one issue; with intent
    ["submit"] and a value, the answer of the handler of the value's
    type, and the submission carries no issue. *)
Theorem validateRequest_answers request body now db resp :
  result_of (validateRequest verifyTOTP request body now db) = Ok resp ->
  exists sub,
    result_of (parse verifyTOTP now body db) = Ok sub /\
    ((b_intent body <> "submit" /\ resp = json "idle" sub 200) \/
     (b_intent body = "submit" /\ value sub = None /\ error sub <> [] /\
      resp = json "error" sub 400) \/
     (b_intent body = "submit" /\ error sub = [] /\
      exists data,
        value sub = Some data /\
        resp = match d_type data with
               | onboarding =>
                   redirect "/onboarding"
                     (set_param onboardingEmailSessionKey (d_target data)
                        (req_session request))
               | ty => handled ty (mkArgs request sub body)
               end)).
Proof.
  clear generateTOTP. intros R.
  pose proof (validateRequest_run verifyTOTP request body now db) as Run.
  cbv zeta in Run.
  destruct (result_of (parse verifyTOTP now body db)) as [sub|e] eqn:P;
    [|rewrite Run in R; discriminate R].
  exists sub. split; [reflexivity|].
  destruct (parse_value_iff_no_error now body db sub P) as [VE EV].
  assert (intent sub = b_intent body) as I.
  { revert P. rewrite parse_run.
    destruct (VerifySchema body) as [[|dirty d] issues]; cbn [result_of fst].
    - intros [= <-]. reflexivity.
    - destruct (result_of (isCodeValid verifyTOTP (d_code d) (d_type d) (d_target d)
                             now db)) as [[|]|e]; [destruct dirty| |];
        try discriminate; intros [= <-]; reflexivity. }
  destruct (String.eqb_spec (intent sub) "submit") as [S|S]; cbn [negb] in Run.
  - destruct (value sub) as [data|] eqn:V.
    + right. right. rewrite <- I. split; [exact S|]. split; [exact (EV data eq_refl)|].
      exists data. split; [reflexivity|].
      destruct (validateRequest_accepted request body now db data) as (sub' & P' & _ & E).
      { exists sub. repeat split; assumption. }
      rewrite P in P'. injection P' as <-. rewrite E in R. injection R as <-.
      reflexivity.
    + right. left. rewrite <- I. split; [exact S|]. split; [reflexivity|].
      split; [apply VE; reflexivity|]. rewrite Run in R. injection R as <-. reflexivity.
  - left. rewrite <- I. split; [exact S|]. rewrite Run in R. injection R as <-.
    reflexivity.
Qed.


End FurtherRoute.

(** ** Other pairs are left alone *)

Lemma has_key_other ty tg ty' tg' r :
  ty' <> ty \/ tg' <> tg -> has_key ty tg r = true -> has_key ty' tg' r = false.
Proof.
  intros N K. destruct (has_key ty' tg' r) eqn:K'; [|reflexivity].
  apply has_key_spec in K as [<- <-]. apply has_key_spec in K' as [<- <-].
  destruct N as [N|N]; destruct (N eq_refl).
Qed.

Lemma live_where_has_key ty tg now r :
  live_where ty tg now r = true -> has_key ty tg r = true.
Proof. intros L. apply live_where_spec in L as [K _]. exact K. Qed.

Lemma filter_key_filter_out ty tg ty' tg' db :
  ty' <> ty \/ tg' <> tg ->
  filter (has_key ty' tg') (filter (fun r => negb (has_key ty tg r)) db)
  = filter (has_key ty' tg') db.
Proof.
  intros N. induction db as [|r db IH]; [reflexivity|]. cbn [filter].
  destruct (has_key ty tg r) eqn:K; cbn [negb filter].
  - rewrite (has_key_other ty tg ty' tg' r N K). exact IH.
  - rewrite IH. reflexivity.
Qed.

Lemma find_live_filter_out ty tg ty' tg' now db :
  ty' <> ty \/ tg' <> tg ->
  find (live_where ty' tg' now) (filter (fun r => negb (has_key ty tg r)) db)
  = find (live_where ty' tg' now) db.
Proof.
  intros N. induction db as [|r db IH]; [reflexivity|]. cbn [filter find].
  destruct (has_key ty tg r) eqn:K; cbn [negb find].
  - destruct (live_where ty' tg' now r) eqn:L; [|exact IH].
    apply live_where_has_key in L.
    rewrite (has_key_other ty tg ty' tg' r N K) in L. discriminate L.
  - rewrite IH. reflexivity.
Qed.

Lemma filter_key_remove_first ty tg ty' tg' db :
  ty' <> ty \/ tg' <> tg ->
  filter (has_key ty' tg') (remove_first ty tg db) = filter (has_key ty' tg') db.
Proof.
  intros N. induction db as [|r db IH]; [reflexivity|]. cbn [remove_first filter].
  destruct (has_key ty tg r) eqn:K.
  - rewrite (has_key_other ty tg ty' tg' r N K). reflexivity.
  - cbn [filter]. rewrite IH. reflexivity.
Qed.

Lemma find_live_remove_first_other ty tg ty' tg' now db :
  ty' <> ty \/ tg' <> tg ->
  find (live_where ty' tg' now) (remove_first ty tg db) = find (live_where ty' tg' now) db.
Proof.
  intros N. induction db as [|r db IH]; [reflexivity|]. cbn [remove_first find].
  destruct (has_key ty tg r) eqn:K.
  - destruct (live_where ty' tg' now r) eqn:L; [|reflexivity].
    apply live_where_has_key in L.
    rewrite (has_key_other ty tg ty' tg' r N K) in L. discriminate L.
  - cbn [find]. rewrite IH. reflexivity.
Qed.

Lemma find_app_last {A} (f : A -> bool) l a :
  f a = false -> find f (l ++ [a]) = find f l.
Proof.
  intros F. induction l as [|b l IH]; cbn [app find]; [rewrite F; reflexivity|].
  destruct (f b); [reflexivity | exact IH].
Qed.


Section FurtherIssue.

Variable generateTOTP : string -> Z -> string -> Date -> Result TOTP.
Variable verifyTOTP : string -> string -> string -> Z -> Z -> Date -> Result bool.


(** X5.  The two URLs of [prepareVerification].  Both point to /verify
    on the domain of the request.  [redirectTo] carries the type and the
    target and no code: it is copied before the code is set.
    [verifyUrl] carries the type, the target and the generated code.
    The form of the verify page therefore starts, on [redirectTo], with
    the type and the target filled in and an empty code, and on
    [verifyUrl] with the code filled in as well. *)
Theorem prepared_urls period request type target entropy now db prepared :
  result_of (prepareVerification generateTOTP period request type target entropy now db)
  = Ok prepared ->
  u_href (p_redirectTo prepared) = (req_domainUrl request ++ "/verify")%string /\
  u_href (p_verifyUrl prepared) = (req_domainUrl request ++ "/verify")%string /\
  u_searchParams (p_redirectTo prepared)
  = [("type", type_name type); ("target", target)] /\
  u_searchParams (p_verifyUrl prepared)
  = [("type", type_name type); ("target", target); ("code", p_otp prepared)] /\
  searchParams_get "code" (u_searchParams (p_redirectTo prepared)) = None /\
  defaultValue (u_searchParams (p_redirectTo prepared))
  = mkDefaultValue "" (type_name type) target "" /\
  defaultValue (u_searchParams (p_verifyUrl prepared))
  = mkDefaultValue (p_otp prepared) (type_name type) target "".
Proof.
  rewrite prepareVerification_run.
  destruct (generateTOTP "SHA256" period entropy now) as [cfg|e]; [|discriminate].
  cbv zeta. destruct (valid_date (now + t_period cfg * 1000)); [|discriminate].
  cbn [result_of fst]. intros [= <-].
  repeat split.
Qed.

(** X6.  Issuing a challenge for one pair leaves every other pair alone:
    the rows of another (type, target) are the same before and after,
    and [isCodeValid] answers for that pair as it did before, for every
    code and time. *)
Theorem issue_leaves_other_pairs period request type target entropy now db ty' tg' :
  ty' <> type \/ tg' <> target ->
  let out := prepareVerification generateTOTP period request type target entropy now db in
  filter (has_key ty' tg') (table_of out) = filter (has_key ty' tg') db /\
  forall code now',
    result_of (isCodeValid verifyTOTP code ty' tg' now' (table_of out))
    = result_of (isCodeValid verifyTOTP code ty' tg' now' db).
Proof.
  intros N out. subst out. rewrite prepareVerification_run.
  destruct (generateTOTP "SHA256" period entropy now) as [cfg|e];
    [|split; reflexivity].
  cbv zeta.
  destruct (valid_date (now + t_period cfg * 1000)); cbn [table_of fst snd].
  - set (row := mkVerification type target _ _ _ _).
    assert (has_key ty' tg' row = false) as K.
    { apply (has_key_other type target ty' tg' row N). apply has_key_spec.
      split; reflexivity. }
    split.
    + rewrite filter_app. cbn [filter]. rewrite K, app_nil_r.
      apply filter_key_filter_out, N.
    + intros code now'. rewrite !isCodeValid_run. cbn [result_of fst].
      rewrite find_app_last.
      * rewrite (find_live_filter_out type target ty' tg' now' db N). reflexivity.
      * destruct (live_where ty' tg' now' row) eqn:L; [|reflexivity].
        apply live_where_has_key in L. rewrite K in L. discriminate L.
  - split; [apply filter_key_filter_out, N|].
    intros code now'. rewrite !isCodeValid_run. cbn [result_of fst].
    rewrite (find_live_filter_out type target ty' tg' now' db N). reflexivity.
Qed.

(** X7.  The outcomes of [prepareVerification].  When [generateTOTP]
    raises, the call raises the same exception before any call to the
    store, so that the old challenge is still there.  When the expiry,
    the issuance time plus 1000 times the period, is not a valid Date,
    the create is refused after the deleteMany has run: the call
    raises, and no row of the pair is left.  When the call succeeds, the
    calls were the deleteMany and the create of a row of the pair, which
    is in the table and expires, at a valid Date, one stored period
    after the issuance. *)
Theorem issue_outcomes period request type target entropy now db :
  let out := prepareVerification generateTOTP period request type target entropy now db in
  (forall e,
     generateTOTP "SHA256" period entropy now = Throw e ->
     out = (Throw e, db, [])) /\
  (forall cfg,
     generateTOTP "SHA256" period entropy now = Ok cfg ->
     valid_date (now + t_period cfg * 1000) = false ->
     result_of out = Throw ValidationError /\
     table_of out = filter (fun r => negb (has_key type target r)) db /\
     existsb (has_key type target) (table_of out) = false /\
     trace_of out
     = [db_deleteMany type target;
        db_create (mkVerification type target (t_secret cfg) (t_algorithm cfg)
                     (t_period cfg) (Some (now + t_period cfg * 1000)))]) /\
  (forall prepared,
     result_of out = Ok prepared ->
     exists row,
       trace_of out = [db_deleteMany type target; db_create row] /\
       find (has_key type target) (table_of out) = Some row /\
       count_key type target (table_of out) = 1%nat /\
       v_expiresAt row = Some (now + v_period row * 1000) /\
       valid_date (now + v_period row * 1000) = true).
Proof.
  clear verifyTOTP. intros out. subst out. rewrite prepareVerification_run.
  destruct (generateTOTP "SHA256" period entropy now) as [cfg|e]; cbv zeta.
  - destruct (valid_date (now + t_period cfg * 1000)) eqn:V;
      cbn [result_of table_of trace_of fst snd].
    + split; [discriminate|split].
      * intros cfg' [= <-] H. rewrite V in H. discriminate H.
      * intros prepared _. eexists. split; [reflexivity|].
        set (row := mkVerification type target _ _ _ _).
        assert (has_key type target row = true) as K
          by (apply has_key_spec; split; reflexivity).
        assert (forall l, existsb (has_key type target) l = false ->
                          find (has_key type target) (l ++ [row]) = Some row) as F.
        { induction l as [|r l IH]; cbn [app find existsb]; [rewrite K; reflexivity|].
          intros A. apply orb_false_iff in A as [A1 A2]. rewrite A1. exact (IH A2). }
        split; [|split; [|split; [reflexivity | exact V]]].
        -- apply F. apply count_key_zero_existsb, count_key_filter_out.
        -- rewrite count_key_app, count_key_filter_out. unfold count_key.
           cbn [filter]. rewrite K. reflexivity.
    + split; [discriminate|split; [|discriminate]].
      intros cfg' [= <-] _. split; [reflexivity|]. split; [reflexivity|].
      split; [|reflexivity].
      apply count_key_zero_existsb, count_key_filter_out.
  - split; [|split; discriminate].
    intros e' [= ->]. reflexivity.
Qed.

(** X8.  A submission leaves every other pair alone: when the type or
    the target of the body differs from a pair, the rows of that pair
    are the same after [validateRequest], and [isCodeValid] answers for
    the pair as before. *)
Theorem submission_leaves_other_pairs request body now db ty' tg' :
  b_type body <> Text (type_name ty') \/ b_target body <> Text tg' ->
  let out := validateRequest verifyTOTP request body now db in
  filter (has_key ty' tg') (table_of out) = filter (has_key ty' tg') db /\
  forall code now',
    result_of (isCodeValid verifyTOTP code ty' tg' now' (table_of out))
    = result_of (isCodeValid verifyTOTP code ty' tg' now' db).
Proof.
  clear generateTOTP. intros N out. subst out.
  destruct (validateRequest_cases verifyTOTP request body now db)
    as [(T & _) | (data & resp & A & R)].
  - rewrite T. split; reflexivity.
  - rewrite R. cbn [table_of fst snd].
    assert (ty' <> d_type data \/ tg' <> d_target data) as N'.
    { apply accepts_iff in A as (_ & Sch & _).
      destruct (VerifySchema_ok body false data Sch) as (_ & Ty & Tg & _).
      destruct N as [N|N].
      - left. intros ->. exact (N Ty).
      - right. intros ->. exact (N Tg). }
    split.
    + apply filter_key_remove_first, N'.
    + intros code now'. rewrite !isCodeValid_run. cbn [result_of fst].
      rewrite (find_live_remove_first_other _ _ ty' tg' now' db N'). reflexivity.
Qed.


End FurtherIssue.

(** ** Histories *)

Lemma count_events_app f a b :
  count_events f (a ++ b) = (count_events f a + count_events f b)%nat.
Proof. unfold count_events. rewrite filter_app, length_app. reflexivity. Qed.

Lemma is_delete_of_spec ty tg ty' tg' :
  is_delete_of ty tg (db_delete ty' tg') = true <-> ty' = ty /\ tg' = tg.
Proof.
  cbn [is_delete_of]. rewrite andb_true_iff, type_eqb_eq, String.eqb_eq. tauto.
Qed.

Lemma In_remove_first ty tg r db : In r (remove_first ty tg db) -> In r db.
Proof.
  induction db as [|a db IH]; cbn [remove_first]; [tauto|].
  destruct (has_key ty tg a); [intros I; right; exact I|].
  intros [<-|I]; [left; reflexivity | right; exact (IH I)].
Qed.

Lemma live_where_later ty tg now now' r :
  now <= now' -> live_where ty tg now' r = true -> live_where ty tg now r = true.
Proof.
  intros Le L. apply live_where_spec in L as [K L]. apply live_where_spec.
  split; [exact K|]. destruct L as [L | (e & L & Lt)]; [left; exact L|].
  right. exists e. split; [exact L | lia].
Qed.

Lemma all_expire_forall db :
  all_expire db = true <-> forall r, In r db -> exists e, v_expiresAt r = Some e.
Proof.
  unfold all_expire. rewrite forallb_forall. split; intros H r I.
  - specialize (H r I). destruct (v_expiresAt r) as [e|]; [exists e; reflexivity|].
    discriminate H.
  - destruct (H r I) as [e ->]. reflexivity.
Qed.

Lemma latest_expiry_bound db r e :
  In r db -> v_expiresAt r = Some e -> e <= latest_expiry db.
Proof.
  induction db as [|a db IH]; cbn [In latest_expiry]; [tauto|].
  intros [->|I] E.
  - rewrite E. lia.
  - specialize (IH I E). destruct (v_expiresAt a); lia.
Qed.

Section FurtherHistories.

Variable generateTOTP : string -> Z -> string -> Date -> Result TOTP.
Variable verifyTOTP : string -> string -> string -> Z -> Z -> Date -> Result bool.

(** What one request adds to the account of a pair: a delete of the pair
    takes one of its rows away, and nothing is created. *)
Lemma validateRequest_account request body now db ty tg :
  let out := validateRequest verifyTOTP request body now db in
  count_events (is_create_of ty tg) (trace_of out) = 0%nat /\
  (count_events (is_delete_of ty tg) (trace_of out) + count_key ty tg (table_of out)
   = count_key ty tg db)%nat.
Proof.
  clear generateTOTP. intros out. subst out.
  destruct (validateRequest_cases verifyTOTP request body now db)
    as [(T & Tr & _) | (data & resp & A & R)].
  - rewrite T, Tr.
    destruct (parse_trace verifyTOTP now body db) as [E | (ty' & tg' & E)];
      rewrite E; split; reflexivity.
  - rewrite R. cbn [trace_of table_of fst snd]. split; [reflexivity|].
    unfold count_events. cbn [filter is_delete_of].
    destruct (type_eqb (d_type data) ty && String.eqb (d_target data) tg) eqn:K;
      cbn [List.length].
    + apply andb_true_iff in K as [K1 K2]. apply type_eqb_eq in K1.
      apply String.eqb_eq in K2. subst ty tg.
      apply accepts_iff in A as (_ & _ & C).
      apply isCodeValid_true_row in C as (v & L & _).
      apply find_live_has_key in L as [r L].
      rewrite <- (count_key_remove_first_same (d_type data) (d_target data) db);
        [reflexivity|].
      destruct (existsb (has_key (d_type data) (d_target data)) db) eqn:X;
        [reflexivity|].
      apply existsb_find_none in X. rewrite X in L. discriminate L.
    + cbn [Nat.add]. unfold count_key. f_equal. apply filter_key_remove_first.
      destruct (type_eqb (d_type data) ty) eqn:K1.
      * right. intros ->. rewrite String.eqb_refl in K. discriminate K.
      * left. intros ->.
        assert (type_eqb (d_type data) (d_type data) = true) as X
          by (apply type_eqb_eq; reflexivity).
        rewrite X in K1. discriminate K1.
Qed.

Lemma step_log_account st op ty tg :
  let st' := step_log generateTOTP verifyTOTP st op in
  fst st' = step generateTOTP verifyTOTP (fst st) op /\
  (count_events (is_delete_of ty tg) (snd st') + count_key ty tg (fst st')
   + count_events (is_create_of ty tg) (snd st)
   <= count_key ty tg (fst st) + count_events (is_create_of ty tg) (snd st')
      + count_events (is_delete_of ty tg) (snd st))%nat.
Proof.
  destruct st as [db log]. destruct op as [p r type target e n | r n | r n];
    cbn [step_log step fst snd]; (split; [reflexivity|]); rewrite !count_events_app.
  - rewrite prepareVerification_run.
    destruct (generateTOTP "SHA256" p e n) as [cfg|x]; cbv zeta;
      [|cbn [table_of trace_of fst snd]; cbn; lia].
    set (row := mkVerification type target _ _ _ _).
    assert (count_events (is_delete_of ty tg) [db_deleteMany type target; db_create row]
            = 0%nat) as D by reflexivity.
    assert (count_events (is_create_of ty tg) [db_deleteMany type target; db_create row]
            = count_key ty tg [row]) as C
      by (unfold count_events, count_key; cbn [filter is_create_of];
          destruct (has_key ty tg row); reflexivity).
    assert (count_key ty tg [row] = if has_key ty tg row then 1%nat else 0%nat) as R
      by (unfold count_key; cbn [filter]; destruct (has_key ty tg row); reflexivity).
    destruct (valid_date (n + t_period cfg * 1000)); cbn [table_of trace_of fst snd];
      rewrite D, C, ?count_key_app, R;
      (destruct (has_key ty tg row) eqn:K;
       [ apply has_key_spec in K as [K1 K2]; cbn [row v_type v_target] in K1, K2;
         subst ty tg; rewrite count_key_filter_out; lia |]);
      (assert (count_key ty tg (filter (fun r0 => negb (has_key type target r0)) db)
               = count_key ty tg db) as ->; [|lia]);
      unfold count_key; f_equal; apply filter_key_filter_out;
      destruct (type_eqb type ty) eqn:K1.
    + right. intros ->. apply type_eqb_eq in K1. subst ty.
      assert (has_key type target row = true) as X
        by (apply has_key_spec; split; reflexivity).
      rewrite X in K. discriminate K.
    + left. intros ->.
      assert (type_eqb type type = true) as X by (apply type_eqb_eq; reflexivity).
      rewrite X in K1. discriminate K1.
    + right. intros ->. apply type_eqb_eq in K1. subst ty.
      assert (has_key type target row = true) as X
        by (apply has_key_spec; split; reflexivity).
      rewrite X in K. discriminate K.
    + left. intros ->.
      assert (type_eqb type type = true) as X by (apply type_eqb_eq; reflexivity).
      rewrite X in K1. discriminate K1.
  - unfold loader. destruct (negb (has_code (req_searchParams r))).
    + cbn. unfold count_key. lia.
    + destruct (validateRequest_account r (req_searchParams r) n db ty tg) as [C D].
      rewrite C. lia.
  - unfold action.
    destruct (validateRequest_account r (req_formData r) n db ty tg) as [C D].
    rewrite C. lia.
Qed.

Lemma run_log_account ops ty tg :
  forall st,
    let final := fold_left (step_log generateTOTP verifyTOTP) ops st in
    fst final = run generateTOTP verifyTOTP ops (fst st) /\
    (count_events (is_delete_of ty tg) (snd final) + count_key ty tg (fst final)
     + count_events (is_create_of ty tg) (snd st)
     <= count_key ty tg (fst st) + count_events (is_create_of ty tg) (snd final)
        + count_events (is_delete_of ty tg) (snd st))%nat.
Proof.
  induction ops as [|op ops IH]; intros st; cbn [fold_left run].
  - split; [reflexivity | lia].
  - destruct (step_log_account st op ty tg) as [F A].
    destruct (IH (step_log generateTOTP verifyTOTP st op)) as [F' A'].
    split; [rewrite F', F; reflexivity | lia].
Qed.

(** X10.  Over any history, from any table, and for every pair: the
    deletes that consumed a challenge of the pair, plus the rows the pair
    still has, never exceed the rows it had at the start plus the
    challenges created for it.  From the empty table a pair is never
    verified more often than a challenge was issued for it. *)
Theorem verifications_never_outnumber_issues ops db ty tg :
  let final := run_log generateTOTP verifyTOTP ops db in
  fst final = run generateTOTP verifyTOTP ops db /\
  (count_events (is_delete_of ty tg) (snd final) + count_key ty tg (fst final)
   <= count_key ty tg db + count_events (is_create_of ty tg) (snd final))%nat /\
  (db = [] ->
   (count_events (is_delete_of ty tg) (snd final)
    <= count_events (is_create_of ty tg) (snd final))%nat).
Proof.
  intros final. subst final. unfold run_log.
  destruct (run_log_account ops ty tg (db, [])) as [F A]. cbn [fst snd] in F, A.
  change (count_events (is_create_of ty tg) []) with 0%nat in A.
  change (count_events (is_delete_of ty tg) []) with 0%nat in A.
  split; [exact F|]. split; [lia|]. intros ->.
  change (count_key ty tg []) with 0%nat in A. lia.
Qed.

Lemma submissions_only_remove ops :
  forallb is_submission ops = true ->
  forall db r, In r (run generateTOTP verifyTOTP ops db) -> In r db.
Proof.
  induction ops as [|op ops IH]; cbn [forallb run fold_left]; intros S db r I;
    [exact I|].
  apply andb_true_iff in S as [S1 S2]. specialize (IH S2 _ _ I).
  destruct (submission_table generateTOTP verifyTOTP op db S1)
    as [E | (ty' & tg' & E)]; rewrite E in IH; [exact IH|].
  exact (In_remove_first ty' tg' r db IH).
Qed.

(** X11.  No challenge comes back to life.  When a pair has no live
    challenge at some time, then after any requests (none of them an
    issuance) and at that time or any later one [isCodeValid] answers
    false for the pair, for every code. *)
Theorem no_challenge_comes_back ty tg now db later code now' :
  existsb (live_where ty tg now) db = false ->
  forallb is_submission later = true ->
  now <= now' ->
  isCodeValid verifyTOTP code ty tg now' (run generateTOTP verifyTOTP later db)
  = (Ok false, run generateTOTP verifyTOTP later db, [db_findFirst ty tg now']).
Proof.
  intros Dead S Le. rewrite isCodeValid_run.
  assert (find (live_where ty tg now')
            (run generateTOTP verifyTOTP later db) = None) as ->; [|reflexivity].
  apply find_none_forall. intros r I.
  apply (submissions_only_remove later S) in I.
  destruct (live_where ty tg now' r) eqn:L; [|reflexivity].
  apply (live_where_later ty tg now now' r Le) in L.
  apply existsb_find_none in Dead. rewrite (find_none _ _ Dead r I) in L.
  discriminate L.
Qed.

Lemma step_all_expire op db :
  all_expire db = true -> all_expire (step generateTOTP verifyTOTP db op) = true.
Proof.
  intros E. destruct op as [p r ty tg e n | r n | r n].
  - cbn [step]. rewrite prepareVerification_run.
    destruct (generateTOTP "SHA256" p e n) as [g|x]; cbv zeta; [|exact E].
    destruct (valid_date (n + t_period g * 1000)); cbn [table_of fst snd];
      apply all_expire_forall; intros a I.
    + apply in_app_or in I as [I|[<-|[]]].
      * apply filter_In in I as [I _]. exact (proj1 (all_expire_forall db) E a I).
      * eexists. reflexivity.
    + apply filter_In in I as [I _]. exact (proj1 (all_expire_forall db) E a I).
  - destruct (submission_table generateTOTP verifyTOTP (get r n) db eq_refl)
      as [-> | (ty' & tg' & ->)]; [exact E|].
    apply all_expire_forall. intros a I. apply In_remove_first in I.
    exact (proj1 (all_expire_forall db) E a I).
  - destruct (submission_table generateTOTP verifyTOTP (post r n) db eq_refl)
      as [-> | (ty' & tg' & ->)]; [exact E|].
    apply all_expire_forall. intros a I. apply In_remove_first in I.
    exact (proj1 (all_expire_forall db) E a I).
Qed.

Lemma run_all_expire ops :
  forall db, all_expire db = true ->
             all_expire (run generateTOTP verifyTOTP ops db) = true.
Proof.
  induction ops as [|op ops IH]; cbn [run fold_left]; intros db E; [exact E|].
  apply IH, step_all_expire, E.
Qed.

(** X12.  Every challenge expires.  The route only ever stores rows with
    an [expiresAt]: a table whose rows all have one keeps that property
    over any history, so the null branch of the lookup is never taken
    on it, and from the latest [expiresAt] of the table on, [isCodeValid]
    answers false for every pair and every code. *)
Theorem every_challenge_expires ops db :
  all_expire db = true ->
  let db' := run generateTOTP verifyTOTP ops db in
  all_expire db' = true /\
  forall code ty tg now,
    latest_expiry db' <= now ->
    isCodeValid verifyTOTP code ty tg now db' = (Ok false, db', [db_findFirst ty tg now]).
Proof.
  intros E db'. assert (all_expire db' = true) as E' by (apply run_all_expire, E).
  split; [exact E'|]. intros code ty tg now Late. rewrite isCodeValid_run.
  assert (find (live_where ty tg now) db' = None) as ->; [|reflexivity].
  apply find_none_forall. intros r I.
  destruct (live_where ty tg now r) eqn:L; [|reflexivity].
  apply live_where_spec in L as [_ L].
  destruct (proj1 (all_expire_forall db') E' r I) as [e X].
  pose proof (latest_expiry_bound db' r e I X) as B.
  destruct L as [L | (e' & L & Lt)]; rewrite X in L; [discriminate L|].
  injection L as <-. lia.
Qed.

End FurtherHistories.

(** ** Re-issuing and the acceptance criterion *)

Lemma filter_out_snoc_same ty tg l row :
  has_key ty tg row = true ->
  filter (fun r => negb (has_key ty tg r)) (filter (fun r => negb (has_key ty tg r)) l
                                            ++ [row])
  = filter (fun r => negb (has_key ty tg r)) l.
Proof.
  intros K. rewrite filter_app. cbn [filter]. rewrite K. cbn [negb].
  rewrite app_nil_r. induction l as [|r l IH]; [reflexivity|]. cbn [filter].
  destruct (negb (has_key ty tg r)) eqn:N; cbn [filter]; [rewrite N, IH|]; auto.
Qed.

Lemma filter_out_twice ty tg l :
  filter (fun r => negb (has_key ty tg r)) (filter (fun r => negb (has_key ty tg r)) l)
  = filter (fun r => negb (has_key ty tg r)) l.
Proof.
  induction l as [|r l IH]; [reflexivity|]. cbn [filter].
  destruct (negb (has_key ty tg r)) eqn:N; cbn [filter]; [rewrite N, IH|]; auto.
Qed.

Section FurtherCriterion.

Variable generateTOTP : string -> Z -> string -> Date -> Result TOTP.
Variable verifyTOTP : string -> string -> string -> Z -> Z -> Date -> Result bool.

(** X14.  Re-issuing forgets the first challenge.  When a challenge is
    issued for a pair and then another one for the same pair, the table
    is the one the second issuance alone would have left: nothing of the
    first challenge remains. *)
Theorem reissue_forgets_first p1 r1 e1 n1 p2 r2 e2 n2 type target db cfg :
  generateTOTP "SHA256" p2 e2 n2 = Ok cfg ->
  table_of (prepareVerification generateTOTP p2 r2 type target e2 n2
              (table_of (prepareVerification generateTOTP p1 r1 type target e1 n1 db)))
  = table_of (prepareVerification generateTOTP p2 r2 type target e2 n2 db).
Proof.
  intros G. rewrite !prepareVerification_run, G. cbv zeta.
  assert (filter (fun r => negb (has_key type target r))
            (table_of
               match generateTOTP "SHA256" p1 e1 n1 with
               | Ok c =>
                   if valid_date (n1 + t_period c * 1000)
                   then (Ok (mkPrepared (t_otp c) (getRedirectToUrl r1 type target)
                               (searchParams_set (getRedirectToUrl r1 type target)
                                  codeQueryParam (t_otp c))),
                         filter (fun r => negb (has_key type target r)) db
                         ++ [mkVerification type target (t_secret c) (t_algorithm c)
                               (t_period c) (Some (n1 + t_period c * 1000))],
                         [db_deleteMany type target;
                          db_create (mkVerification type target (t_secret c)
                                       (t_algorithm c) (t_period c)
                                       (Some (n1 + t_period c * 1000)))])
                   else (Throw ValidationError,
                         filter (fun r => negb (has_key type target r)) db,
                         [db_deleteMany type target;
                          db_create (mkVerification type target (t_secret c)
                                       (t_algorithm c) (t_period c)
                                       (Some (n1 + t_period c * 1000)))])
               | Throw e => (Throw e, db, [])
               end)
          = filter (fun r => negb (has_key type target r)) db) as First.
  { destruct (generateTOTP "SHA256" p1 e1 n1) as [cfg1|x]; [|reflexivity].
    destruct (valid_date (n1 + t_period cfg1 * 1000)); cbn [table_of fst snd].
    - apply filter_out_snoc_same. apply has_key_spec. split; reflexivity.
    - apply filter_out_twice. }
  destruct (valid_date (n2 + t_period cfg * 1000)); cbn [table_of fst snd] in *;
    rewrite First; reflexivity.
Qed.

(** X15.  When exactly a challenge is consumed.  [validateRequest]
    deletes the row of a pair exactly when the body is a submission
    (intent ["submit"]) whose code is a string of six characters, whose
    type and target name the pair, whose redirectTo is absent or a
    string, and the first live row of the pair is one on which
    [verifyTOTP] accepts the code at the current time. *)
Theorem consumed_exactly_when request body now db ty tg :
  In (db_delete ty tg) (trace_of (validateRequest verifyTOTP request body now db)) <->
  b_intent body = "submit" /\
  b_type body = Text (type_name ty) /\
  b_target body = Text tg /\
  b_redirectTo body <> NotText /\
  exists code v,
    b_code body = Text code /\
    String.length code = 6%nat /\
    find (live_where ty tg now) db = Some v /\
    verifyTOTP code (v_secret v) (v_algorithm v) (v_period v) 0 now = Ok true.
Proof.
  clear generateTOTP. split.
  - intros I.
    destruct (validateRequest_cases verifyTOTP request body now db)
      as [(_ & T & _) | (data & resp & A & R)].
    + rewrite T in I.
      destruct (parse_trace verifyTOTP now body db) as [E | (ty' & tg' & E)];
        rewrite E in I; cbn in I; [destruct I|].
      destruct I as [I|[]]. discriminate I.
    + rewrite R in I. cbn [trace_of snd] in I.
      destruct I as [I|[I|[I|[]]]]; try discriminate I. injection I as <- <-.
      apply accepts_iff in A as (In' & Sch & C).
      apply VerifySchema_valid_iff in Sch as (Co & Len & Ty & Tg & Rd).
      apply isCodeValid_true_row in C as (v & L & V).
      split; [exact In'|]. split; [exact Ty|]. split; [exact Tg|]. split.
      * rewrite Rd. destruct (d_redirectTo data); discriminate.
      * exists (d_code data), v. repeat split; try assumption.
        replace 0 with (typeOTPConfig (d_type data))
          by (destruct (d_type data); reflexivity).
        exact V.
  - intros (In' & Ty & Tg & Rd & code & v & Co & Len & L & V).
    set (data := mkVerifyData code ty tg
                   (match b_redirectTo body with Text r => Some r | _ => None end)).
    assert (accepts verifyTOTP body now db data) as A.
    { apply accepts_iff. split; [exact In'|]. split.
      - apply VerifySchema_valid_iff. cbn [data d_code d_type d_target d_redirectTo].
        repeat split; try assumption.
        destruct (b_redirectTo body); [reflexivity | reflexivity | destruct (Rd eq_refl)].
      - cbn [data d_code d_type d_target]. rewrite isCodeValid_run, L.
        cbn [result_of fst].
        replace (typeOTPConfig ty) with 0 by (destruct ty; reflexivity). exact V. }
    destruct (validateRequest_cases verifyTOTP request body now db)
      as [(_ & _ & N) | (data' & resp & A' & R)]; [destruct (N data A)|].
    rewrite (accepts_inj verifyTOTP body now db data' data A' A) in R.
    rewrite R. cbn [trace_of snd data d_type d_target]. right. left. reflexivity.
Qed.

End FurtherCriterion.

(** ** More concrete runs *)

Lemma submission_value_xor_error_witness :
  exists sub,
    result_of (parse verifyTOTP (Sample.t0 + 10000) (Sample.form "000000") Sample.issued)
    = Ok sub /\
    value sub = None /\ error sub <> [].
Proof.
  assert (result_of (parse verifyTOTP (Sample.t0 + 10000) (Sample.form "000000")
                       Sample.issued)
          = Ok (mkSubmission "submit" (Sample.form "000000")
                  [mkIssue "code" (custom "Invalid code")] None)) as P
    by (vm_compute; reflexivity).
  destruct (submission_value_xor_error verifyTOTP (Sample.t0 + 10000)
              (Sample.form "000000") Sample.issued _ P) as (_ & _ & VE & _).
  eexists. split; [exact P|]. split; [reflexivity|]. apply VE. reflexivity.
Defined.

Lemma validateRequest_answers_witness :
  result_of (validateRequest verifyTOTP (Sample.request (Sample.form "000000"))
               (Sample.form "000000") (Sample.t0 + 10000) Sample.issued)
  = Ok (json "error"
          (mkSubmission "submit" (Sample.form "000000")
             [mkIssue "code" (custom "Invalid code")] None) 400) /\
  exists sub,
    result_of (parse verifyTOTP (Sample.t0 + 10000) (Sample.form "000000") Sample.issued)
    = Ok sub.
Proof.
  assert (result_of (validateRequest verifyTOTP (Sample.request (Sample.form "000000"))
                       (Sample.form "000000") (Sample.t0 + 10000) Sample.issued)
          = Ok (json "error"
                  (mkSubmission "submit" (Sample.form "000000")
                     [mkIssue "code" (custom "Invalid code")] None) 400)) as R
    by (vm_compute; reflexivity).
  split; [exact R|].
  destruct (validateRequest_answers verifyTOTP _ _ _ _ _ R) as (sub & P & _).
  exists sub. exact P.
Defined.


Lemma prepared_urls_witness :
  exists prepared,
    result_of (prepareVerification generateTOTP 600 (Sample.request (Sample.form ""))
                 onboarding "a@x.com" "secret-00678" Sample.t0 [])
    = Ok prepared /\
    searchParams_get "code" (u_searchParams (p_redirectTo prepared)) = None /\
    searchParams_get "code" (u_searchParams (p_verifyUrl prepared)) = Some "053957".
Proof.
  assert (result_of (prepareVerification generateTOTP 600
                       (Sample.request (Sample.form "")) onboarding "a@x.com"
                       "secret-00678" Sample.t0 [])
          = Ok (mkPrepared "053957"
                  (mkURL "https://x.com/verify"
                     [("type", "onboarding"); ("target", "a@x.com")])
                  (mkURL "https://x.com/verify"
                     [("type", "onboarding"); ("target", "a@x.com");
                      ("code", "053957")]))) as P
    by (vm_compute; reflexivity).
  destruct (prepared_urls generateTOTP _ _ _ _ _ _ _ _ P) as (_ & _ & _ & _ & N & _).
  eexists. split; [exact P|]. split; [exact N | reflexivity].
Defined.

Lemma issue_leaves_other_pairs_witness :
  (forgot_password <> onboarding \/ "a@x.com" <> "a@x.com") /\
  filter (has_key forgot_password "a@x.com") Sample.reissued
  = filter (has_key forgot_password "a@x.com") Sample.issued.
Proof.
  assert (forgot_password <> onboarding \/ "a@x.com" <> "a@x.com") as N
    by (left; discriminate).
  split; [exact N|].
  exact (proj1 (issue_leaves_other_pairs generateTOTP verifyTOTP 600
                  (Sample.request (Sample.form "")) onboarding "a@x.com"
                  "secret-00823" (Sample.t0 + 5000) Sample.issued
                  forgot_password "a@x.com" N)).
Defined.

Lemma submission_leaves_other_pairs_witness :
  (b_type (Sample.form "053957") <> Text (type_name change_email) \/
   b_target (Sample.form "053957") <> Text "a@x.com") /\
  filter (has_key change_email "a@x.com")
    (table_of (validateRequest verifyTOTP (Sample.request (Sample.form "053957"))
                 (Sample.form "053957") (Sample.t0 + 10000) Sample.issued))
  = filter (has_key change_email "a@x.com") Sample.issued.
Proof.
  assert (b_type (Sample.form "053957") <> Text (type_name change_email) \/
          b_target (Sample.form "053957") <> Text "a@x.com") as N
    by (left; discriminate).
  split; [exact N|].
  exact (proj1 (submission_leaves_other_pairs verifyTOTP
                  (Sample.request (Sample.form "053957")) (Sample.form "053957")
                  (Sample.t0 + 10000) Sample.issued change_email "a@x.com" N)).
Defined.


(** With a period whose expiry is past the last valid Date, issuing
    raises after the challenge of [Sample.issued] was deleted. *)
Lemma issue_outcomes_witness :
  generateTOTP "SHA256" 8640000000000000 "secret-00823" Sample.t0
  = Ok (mkTOTP "785726" "secret-00823" "SHA256" 8640000000000000) /\
  valid_date (Sample.t0 + 8640000000000000 * 1000) = false /\
  result_of (prepareVerification generateTOTP 8640000000000000
               (Sample.request (Sample.form "")) onboarding "a@x.com" "secret-00823"
               Sample.t0 Sample.issued) = Throw ValidationError /\
  existsb (has_key onboarding "a@x.com")
    (table_of (prepareVerification generateTOTP 8640000000000000
                 (Sample.request (Sample.form "")) onboarding "a@x.com" "secret-00823"
                 Sample.t0 Sample.issued)) = false.
Proof.
  assert (generateTOTP "SHA256" 8640000000000000 "secret-00823" Sample.t0
          = Ok (mkTOTP "785726" "secret-00823" "SHA256" 8640000000000000)) as G
    by (vm_compute; reflexivity).
  assert (valid_date (Sample.t0 + 8640000000000000 * 1000) = false) as V
    by (vm_compute; reflexivity).
  split; [exact G|]. split; [exact V|].
  destruct (issue_outcomes generateTOTP 8640000000000000
              (Sample.request (Sample.form "")) onboarding "a@x.com" "secret-00823"
              Sample.t0 Sample.issued) as (_ & Refused & _).
  destruct (Refused _ G V) as (R & _ & Gone & _).
  split; [exact R | exact Gone].
Defined.

Lemma no_challenge_comes_back_witness :
  existsb (live_where onboarding "a@x.com" (Sample.t0 + 600000)) Sample.issued = false /\
  result_of
    (isCodeValid verifyTOTP "810828" onboarding "a@x.com" (Sample.t0 + 700000)
       (run generateTOTP verifyTOTP
          [post (Sample.request (Sample.form "810828")) (Sample.t0 + 650000)]
          Sample.issued))
  = Ok false.
Proof.
  assert (existsb (live_where onboarding "a@x.com" (Sample.t0 + 600000)) Sample.issued
          = false) as Dead by (vm_compute; reflexivity).
  split; [exact Dead|].
  assert (Sample.t0 + 600000 <= Sample.t0 + 700000) as Le
    by (vm_compute; discriminate).
  exact (f_equal result_of
           (no_challenge_comes_back generateTOTP verifyTOTP onboarding "a@x.com"
              (Sample.t0 + 600000) Sample.issued
              [post (Sample.request (Sample.form "810828")) (Sample.t0 + 650000)]
              "810828" (Sample.t0 + 700000) Dead eq_refl Le)).
Defined.

Lemma every_challenge_expires_witness :
  all_expire Sample.issued = true /\
  all_expire
    (run generateTOTP verifyTOTP
       [issue 600 (Sample.request (Sample.form "")) change_email "b@x.com"
          "secret-00001" (Sample.t0 + 1000);
        get (Sample.request (Sample.form "053957")) (Sample.t0 + 10000)]
       Sample.issued)
  = true.
Proof.
  assert (all_expire Sample.issued = true) as E by (vm_compute; reflexivity).
  split; [exact E|].
  exact (proj1 (every_challenge_expires generateTOTP verifyTOTP
                  [issue 600 (Sample.request (Sample.form "")) change_email "b@x.com"
                     "secret-00001" (Sample.t0 + 1000);
                   get (Sample.request (Sample.form "053957")) (Sample.t0 + 10000)]
                  Sample.issued E)).
Defined.

Lemma reissue_forgets_first_witness :
  generateTOTP "SHA256" 600 "secret-00823" (Sample.t0 + 5000)
  = Ok (mkTOTP "053957" "secret-00823" "SHA256" 600) /\
  Sample.reissued
  = table_of (prepareVerification generateTOTP 600 (Sample.request (Sample.form ""))
                onboarding "a@x.com" "secret-00823" (Sample.t0 + 5000) []).
Proof.
  assert (generateTOTP "SHA256" 600 "secret-00823" (Sample.t0 + 5000)
          = Ok (mkTOTP "053957" "secret-00823" "SHA256" 600)) as G
    by (vm_compute; reflexivity).
  split; [exact G|].
  exact (reissue_forgets_first generateTOTP 600 (Sample.request (Sample.form ""))
           "secret-00678" Sample.t0 600 (Sample.request (Sample.form ""))
           "secret-00823" (Sample.t0 + 5000) onboarding "a@x.com" []
           (mkTOTP "053957" "secret-00823" "SHA256" 600) G).
Defined.
